(** * git_info_macro.py: version-control metadata as build arguments

    A shallow embedding of [src/git_info_macro.py] (Python 3) and the
    properties its specification states about it.

    Layout:
    - [PyStr]: the operations of Python's [str] that the script uses
      ([len], slicing, [upper], [replace], [repr], [join]);
    - [Utf8]: the decoder behind [bytes.decode('utf-8')];
    - [PyObj]: Python values, dict objects living in a store, exceptions,
      and the state-and-exception monad the functions run in;
    - [Shlex]: the tokenizer behind [shlex.split];
    - [GitInfo]: the functions of the script, in source order;
    - the vocabulary of the statements, the lemmas on the store, on dict
      assignment, on text and on the tokenizer, and the properties of the
      specification.

    Text is modelled by [string]; the embedding is exact for ASCII text
    (code points below 128), which is where [str.upper] and [repr] are
    given by the small tables below. *)

From Stdlib Require Import ZArith Ascii String List Lia.
From stdpp Require Import base list strings pretty.

Local Open Scope string_scope.
Local Open Scope nat_scope.
Local Open Scope list_scope.

(* ===================================================================== *)
(** ** Python strings *)
(* ===================================================================== *)

Module PyStr.

(** Characters that cannot be written inside a string literal here. *)
Definition squote : ascii := "039"%char.
Definition dquote : ascii := "034"%char.
Definition backslash : ascii := "092"%char.
Definition tab : ascii := "009"%char.
Definition newline : ascii := "010"%char.
Definition carriage : ascii := "013"%char.

Definition chr (c : ascii) : string := String c EmptyString.

(** [len(s)] *)
Definition len (s : string) : nat := String.length s.

(** [s[:n]] for a non-negative [n]: the first [n] characters, the whole
    string when it is shorter. *)
Fixpoint take (n : nat) (s : string) : string :=
  match n, s with
  | S n', String c s' => String c (take n' s')
  | _, _ => EmptyString
  end.

(** [c in s] for a one-character [c]. *)
Fixpoint mem (c : ascii) (s : string) : bool :=
  match s with
  | EmptyString => false
  | String c' s' => if decide (c = c') then true else mem c s'
  end.

(** [str.upper] on one ASCII character: [a]..[z] go to [A]..[Z]. *)
Definition upper_char (c : ascii) : ascii :=
  let n := nat_of_ascii c in
  if ((97 <=? n) && (n <=? 122))%nat then ascii_of_nat (n - 32) else c.

(** [s.upper()] *)
Fixpoint upper (s : string) : string :=
  match s with
  | EmptyString => EmptyString
  | String c s' => String (upper_char c) (upper s')
  end.

(** [s.replace(old, new)] where [old] is the one-character string [c]. *)
Fixpoint replace (c : ascii) (new : string) (s : string) : string :=
  match s with
  | EmptyString => EmptyString
  | String c' s' =>
      if decide (c' = c) then new +:+ replace c new s'
      else String c' (replace c new s')
  end.

(** [sep.join(parts)] *)
Fixpoint join (sep : string) (parts : list string) : string :=
  match parts with
  | [] => EmptyString
  | [p] => p
  | p :: ps => p +:+ sep +:+ join sep ps
  end.

(** One lower-case hexadecimal digit. *)
Definition hex_digit (n : nat) : ascii :=
  if (n <? 10)%nat then ascii_of_nat (48 + n) else ascii_of_nat (87 + n).

(** The escape [\xNN] of a character. *)
Definition hex_escape (c : ascii) : string :=
  let n := nat_of_ascii c in
  String backslash
    (String "x" (String (hex_digit (n / 16)) (chr (hex_digit (n mod 16))))).

(** How [repr] writes one character inside the quotes [q]: the quote and
    the backslash get a backslash, tab, newline and carriage return their
    letter escape, every other control character a hex escape. *)
Definition repr_char (q : ascii) (c : ascii) : string :=
  if decide (c = q) then String backslash (chr c)
  else if decide (c = backslash) then String backslash (chr backslash)
  else if decide (c = tab) then String backslash "t"
  else if decide (c = newline) then String backslash "n"
  else if decide (c = carriage) then String backslash "r"
  else
    let n := nat_of_ascii c in
    if ((n <? 32) || (n =? 127))%nat then hex_escape c else chr c.

Fixpoint repr_body (q : ascii) (s : string) : string :=
  match s with
  | EmptyString => EmptyString
  | String c s' => repr_char q c +:+ repr_body q s'
  end.

(** The quote [repr] picks: double quotes when the text has a single
    quote and no double quote, single quotes otherwise. *)
Definition repr_quote (s : string) : ascii :=
  if mem squote s && negb (mem dquote s) then dquote else squote.

(** [repr(s)] for a [str] *)
Definition repr (s : string) : string :=
  let q := repr_quote s in
  String q (repr_body q s +:+ chr q).

(** [str(n)] for an [int] *)
Definition of_int (z : Z) : string := pretty z.

(** [str(n)] for a length or an index *)
Definition of_nat (n : nat) : string := pretty n.

End PyStr.

(* ===================================================================== *)
(** ** UTF-8 *)
(* ===================================================================== *)

(** [bytes.decode('utf-8')] in its default, strict mode: the bytes are read
    as the well-formed sequences of the Unicode standard, and anything
    else is an error. *)
Module Utf8.

Definition byte (c : ascii) : N := N_of_ascii c.

Definition between (lo hi : N) (c : ascii) : bool :=
  ((lo <=? byte c) && (byte c <=? hi))%N.

(** A continuation byte, [80]..[BF]; it carries six bits. *)
Definition cont (c : ascii) : bool := between 128 191 c.

Definition bits (c : ascii) : N := (byte c - 128)%N.

(** The byte that may follow the lead byte of a three- or four-byte
    sequence: [E0], [ED], [F0] and [F4] admit only a part of the
    continuation bytes, which rules out overlong forms, surrogates and
    code points above [10FFFF]. *)
Definition second (lead c : ascii) : bool :=
  let n := byte lead in
  if (n =? 224)%N then between 160 191 c
  else if (n =? 237)%N then between 128 159 c
  else if (n =? 240)%N then between 144 191 c
  else if (n =? 244)%N then between 128 143 c
  else cont c.

(** The code points of [b], or [None] where the decoder raises
    [UnicodeDecodeError]: a lead byte [80]..[C1] or [F5]..[FF], a byte
    that does not continue its sequence, or a sequence cut short by the
    end of the data. *)
Fixpoint decode (b : string) : option (list N) :=
  match b with
  | EmptyString => Some []
  | String c0 b1 =>
      if between 0 127 c0 then cons (byte c0) <$> decode b1
      else if between 194 223 c0 then
        match b1 with
        | String c1 b2 =>
            if cont c1
            then cons ((byte c0 - 192) * 64 + bits c1)%N <$> decode b2
            else None
        | _ => None
        end
      else if between 224 239 c0 then
        match b1 with
        | String c1 (String c2 b3) =>
            if second c0 c1 && cont c2
            then cons ((byte c0 - 224) * 4096 + bits c1 * 64 + bits c2)%N
                   <$> decode b3
            else None
        | _ => None
        end
      else if between 240 244 c0 then
        match b1 with
        | String c1 (String c2 (String c3 b4)) =>
            if second c0 c1 && cont c2 && cont c3
            then cons ((byte c0 - 240) * 262144 + bits c1 * 4096
                       + bits c2 * 64 + bits c3)%N
                   <$> decode b4
            else None
        | _ => None
        end
      else None
  end.

(** Text is a [string] here, so its characters are the code points below
    256; [None] for a code point beyond them. *)
Fixpoint text (cps : list N) : option string :=
  match cps with
  | [] => Some EmptyString
  | n :: cps' =>
      if (n <? 256)%N then String (ascii_of_N n) <$> text cps' else None
  end.

End Utf8.

(* ===================================================================== *)
(** ** Python values, the store, exceptions *)
(* ===================================================================== *)

Module PyObj.

(** Immutable values: text, integers, byte strings. *)
Inductive pyval : Type :=
| VStr (s : string)
| VInt (z : Z)
| VBytes (b : string).

#[global] Instance pyval_eq_dec : EqDecision pyval.
Proof. solve_decision. Defined.

(** A dict keeps its entries in insertion order, one entry per key. *)
Abbreviation dict := (list (pyval * pyval)).

Abbreviation loc := nat.

(** What a variable or an argument holds: an immutable value, or a
    reference to a dict object of the store. *)
Inductive pyobj : Type :=
| Atom (v : pyval)
| Ref (l : loc).

(** The store: the dict objects allocated so far. *)
Abbreviation heap := (list dict).

Inductive pyexc : Type :=
| TypeError (msg : string)
| ValueError (msg : string)
| AttributeError (msg : string)
| KeyError (key : pyval)
| UnicodeDecodeError (object : string)
| SystemError (msg : string).

Inductive result (A : Type) : Type :=
| Ok (a : A)
| Raise (e : pyexc).
Arguments Ok {A} a.
Arguments Raise {A} e.

(** Computations: they read and update the store and either return or
    raise; what was written before a raise stays written. *)
Definition M (A : Type) : Type := heap → result A * heap.

Definition ret {A} (a : A) : M A := λ h, (Ok a, h).
Definition raise {A} (e : pyexc) : M A := λ h, (Raise e, h).
Definition bind {A B} (m : M A) (f : A → M B) : M B :=
  λ h, match m h with
       | (Ok a, h') => f a h'
       | (Raise e, h') => (Raise e, h')
       end.

Declare Scope py_scope.
Delimit Scope py_scope with py.
Notation "'let*' x ':=' m 'in' k" := (bind m (λ x, k))
  (at level 10, x name, m at level 100, k at level 200,
   format "'[v' 'let*'  x  ':='  m  'in' '/' k ']'") : py_scope.
Notation "m '>>' k" := (bind m (λ _, k))
  (at level 100, k at level 200, right associativity,
   format "'[v' m  '>>' '/' k ']'") : py_scope.
Local Open Scope py_scope.

(** [if not cond: raise e] *)
Definition require (cond : bool) (e : pyexc) : M unit :=
  if cond then ret tt else raise e.

(** [for x in xs: body(x)] *)
Fixpoint for_each {A} (xs : list A) (body : A → M unit) : M unit :=
  match xs with
  | [] => ret tt
  | x :: xs' => body x >> for_each xs' body
  end.

(** *** Types *)

Definition type_name (v : pyval) : string :=
  match v with
  | VStr _ => "str"
  | VInt _ => "int"
  | VBytes _ => "bytes"
  end.

(** [isinstance(v, str)] *)
Definition is_str (v : pyval) : bool :=
  match v with VStr _ => true | _ => false end.

(** [isinstance(o, str)] *)
Definition isinstance_str (o : pyobj) : bool :=
  match o with Atom v => is_str v | Ref _ => false end.

(** [isinstance(o, dict)] *)
Definition isinstance_dict (o : pyobj) : bool :=
  match o with Ref _ => true | Atom _ => false end.

Definition no_attribute (v : pyval) (name : string) : pyexc :=
  AttributeError
    (PyStr.chr PyStr.squote +:+ type_name v +:+ PyStr.chr PyStr.squote
     +:+ " object has no attribute " +:+ PyStr.chr PyStr.squote
     +:+ name +:+ PyStr.chr PyStr.squote).

(** *** Dict contents *)

(** [d[k] = v] on the entries: an existing key keeps its place and gets
    the new value, a new key goes to the end. *)
Fixpoint dict_set (k v : pyval) (d : dict) : dict :=
  match d with
  | [] => [(k, v)]
  | (k', v') :: d' =>
      if decide (k = k') then (k', v) :: d' else (k', v') :: dict_set k v d'
  end.

(** [d[k]] on the entries *)
Fixpoint dict_get (k : pyval) (d : dict) : option pyval :=
  match d with
  | [] => None
  | (k', v') :: d' => if decide (k = k') then Some v' else dict_get k d'
  end.

(** *** Dict objects in the store *)

(** The dict a reference points to. References are only made by
    [new_dict], so they point into the store; the error is for a store
    that was not built that way. *)
Definition deref (l : loc) : M dict :=
  λ h, match h !! l with
       | Some d => (Ok d, h)
       | None => (Raise (SystemError "dangling reference"), h)
       end.

(** [dict()] *)
Definition new_dict : M pyobj :=
  λ h, (Ok (Ref (length h)), h ++ [[]]).

Definition store (l : loc) (d : dict) : M unit :=
  λ h, (Ok tt, <[l := d]> h).

(** [o.items()], taken when the loop over it starts. Assigning to a key
    that is present neither resizes nor reorders the dict, so a loop that
    only does that visits these entries. *)
Definition items (o : pyobj) : M dict :=
  match o with
  | Ref l => deref l
  | Atom v => raise (no_attribute v "items")
  end.

(** [o.keys()] *)
Definition keys (o : pyobj) : M (list pyval) :=
  match o with
  | Ref l => let* d := deref l in ret (d.*1)
  | Atom v => raise (no_attribute v "keys")
  end.

(** [o.values()] *)
Definition values (o : pyobj) : M (list pyval) :=
  match o with
  | Ref l => let* d := deref l in ret (d.*2)
  | Atom v => raise (no_attribute v "values")
  end.

(** [o[k] = v] *)
Definition setitem (o : pyobj) (k v : pyval) : M unit :=
  match o with
  | Ref l =>
      let* d := deref l in
      store l (dict_set k v d)
  | Atom a =>
      raise (TypeError
               (PyStr.chr PyStr.squote +:+ type_name a
                +:+ PyStr.chr PyStr.squote
                +:+ " object does not support item assignment"))
  end.

(** [o[k]]. The script only indexes the dict it has just built; indexing
    a value that is not a dict is not followed further and raises. *)
Definition getitem (o : pyobj) (k : pyval) : M pyval :=
  match o with
  | Ref l =>
      let* d := deref l in
      match dict_get k d with
      | Some v => ret v
      | None => raise (KeyError k)
      end
  | Atom a => raise (TypeError "object is not a dict")
  end.

(** *** Built-ins on values *)

(** [repr(v)] *)
Definition py_repr (v : pyval) : string :=
  match v with
  | VStr s => PyStr.repr s
  | VInt z => PyStr.of_int z
  | VBytes b => "b" +:+ PyStr.repr b
  end.

(** [str(v)], which is also what an empty format field writes *)
Definition py_str (v : pyval) : string :=
  match v with
  | VStr s => s
  | _ => py_repr v
  end.

(** [v.upper()] *)
Definition call_upper (v : pyval) : M pyval :=
  match v with
  | VStr s => ret (VStr (PyStr.upper s))
  | VBytes b => ret (VBytes (PyStr.upper b))
  | VInt _ => raise (no_attribute v "upper")
  end.

(** [v.decode('utf-8')]: the text the bytes encode, and a
    [UnicodeDecodeError], which carries the bytes, when they are not
    well-formed UTF-8. Well-formed bytes that encode a code point above
    255 give text that a [string] cannot hold; this is not followed
    further and raises, as for a dangling reference. *)
Definition call_decode (v : pyval) : M pyval :=
  match v with
  | VBytes b =>
      match Utf8.decode b with
      | Some cps =>
          match Utf8.text cps with
          | Some s => ret (VStr s)
          | None => raise (SystemError "character outside the text model")
          end
      | None => raise (UnicodeDecodeError b)
      end
  | _ => raise (no_attribute v "decode")
  end.

(** [v.encode('utf-8')] *)
Definition call_encode (v : pyval) : M pyval :=
  match v with
  | VStr s => ret (VBytes s)
  | _ => raise (no_attribute v "encode")
  end.

(** [[f(x) for x in xs]] *)
Fixpoint map_m {A B} (f : A → M B) (xs : list A) : M (list B) :=
  match xs with
  | [] => ret []
  | x :: xs' =>
      let* y := f x in
      let* ys := map_m f xs' in
      ret (y :: ys)
  end.

(** Lifting a result that does not touch the store. *)
Definition lift {A} (r : result A) : M A := λ h, (r, h).

End PyObj.

(* ===================================================================== *)
(** ** The tokenizer of [shlex.split] *)
(* ===================================================================== *)

(** [shlex.split(s)] runs the standard library's lexer in POSIX mode with
    [whitespace_split] set and no comment characters; [read_token] is a
    state machine over the characters of [s], followed here state by
    state. *)
Module Shlex.
Import PyStr PyObj.

(** The lexer's [state]: [' '] between tokens, ['a'] inside a word, a
    quote character inside quotes, the escape character after it. *)
Inductive state : Type :=
| Space
| Word
| Quote (q : ascii)
| Escape.

#[global] Instance state_eq_dec : EqDecision state.
Proof. solve_decision. Defined.

(** [whitespace = ' \t\r\n'] *)
Definition whitespace (c : ascii) : bool :=
  bool_decide (c = " "%char) || bool_decide (c = tab)
  || bool_decide (c = carriage) || bool_decide (c = newline).

(** [quotes]: the single and the double quote *)
Definition quotes (c : ascii) : bool :=
  bool_decide (c = squote) || bool_decide (c = dquote).

(** [escape]: the backslash *)
Definition escape (c : ascii) : bool := bool_decide (c = backslash).

(** [escapedquotes]: the double quote *)
Definition escapedquotes (c : ascii) : bool := bool_decide (c = dquote).

Definition nonempty (s : string) : bool :=
  match s with EmptyString => false | String _ _ => true end.

Definition in_quotes (st : state) : bool :=
  match st with Quote _ => true | _ => false end.

Definition push (tok : string) (r : result (list string))
  : result (list string) :=
  match r with
  | Ok toks => Ok (tok :: toks)
  | Raise e => Raise e
  end.

(** The tokens read from [s], starting in state [st] with the pending
    [token]; [escapedstate] is the state an escape returns to and
    [quoted] tells whether the pending token had a quoted part. A token
    is handed out at a [break]; the empty unquoted token at the end of
    the input is the end-of-file mark and is not handed out. In the
    [' '] and ['a'] states a character that is neither whitespace, nor
    the escape, nor a quote goes into the token, whether it is in
    [wordchars] or not ([whitespace_split]). *)
Fixpoint read_tokens (st escapedstate : state) (quoted : bool)
    (token : string) (s : string) : result (list string) :=
  match s with
  | EmptyString =>
      match st with
      | Space | Word =>
          Ok (if nonempty token || quoted then [token] else [])
      | Quote _ => Raise (ValueError "No closing quotation")
      | Escape => Raise (ValueError "No escaped character")
      end
  | String nextchar s' =>
      match st with
      | Space =>
          if whitespace nextchar then
            if nonempty token || quoted
            then push token (read_tokens Space Space false "" s')
            else read_tokens Space escapedstate quoted token s'
          else if escape nextchar then
            read_tokens Escape Word quoted token s'
          else if quotes nextchar then
            read_tokens (Quote nextchar) escapedstate quoted token s'
          else
            read_tokens Word escapedstate quoted (chr nextchar) s'
      | Quote q =>
          if bool_decide (nextchar = q) then
            read_tokens Word escapedstate true token s'
          else if escape nextchar && escapedquotes q then
            read_tokens Escape (Quote q) true token s'
          else
            read_tokens (Quote q) escapedstate true
              (token +:+ chr nextchar) s'
      | Escape =>
          let token :=
            if in_quotes escapedstate
               && negb (bool_decide (nextchar = backslash))
               && negb (bool_decide (Quote nextchar = escapedstate))
            then token +:+ chr backslash else token in
          read_tokens escapedstate escapedstate quoted
            (token +:+ chr nextchar) s'
      | Word =>
          if whitespace nextchar then
            if nonempty token || quoted
            then push token (read_tokens Space Space false "" s')
            else read_tokens Space escapedstate quoted token s'
          else if quotes nextchar then
            read_tokens (Quote nextchar) escapedstate quoted token s'
          else if escape nextchar then
            read_tokens Escape Word quoted token s'
          else
            read_tokens Word escapedstate quoted
              (token +:+ chr nextchar) s'
      end
  end.

(** [shlex.split(s)] *)
Definition split (s : string) : result (list string) :=
  read_tokens Space Space false "" s.

End Shlex.

(* ===================================================================== *)
(** ** The script *)
(* ===================================================================== *)

Module GitInfo.
Import PyStr PyObj.
Local Open Scope py_scope.

Definition not_all_keys : pyexc :=
  TypeError "not all keys of the dict are of type str".
Definition not_all_values : pyexc :=
  TypeError "not all values of the dict are of type str".
Definition not_a_dict : pyexc :=
  TypeError "dct is not of type dict".

(** ['#define {k} "{v}"'.format(k=k, v=v)] *)
Definition define_line (k v : pyval) : string :=
  "#define " +:+ py_str k +:+ " " +:+ chr dquote +:+ py_str v
  +:+ chr dquote.

Definition gen_version_file_lines (dct : pyobj) : M (list string) :=
  let* ks := keys dct in
  require (forallb is_str ks) not_all_keys >>
  let* vs := values dct in
  require (forallb is_str vs) not_all_values >>
  let* its := items dct in
  ret (foldl (λ lines '(k, v), lines ++ [define_line k v]) [] its).

Definition upper_dict_keys (dct : pyobj) : M pyobj :=
  require (isinstance_dict dct) not_a_dict >>
  let* ks := keys dct in
  require (forallb is_str ks) not_all_keys >>
  let* new_dct := new_dict in
  let* its := items dct in
  for_each its (λ '(k, v),
    let* ku := call_upper k in
    setitem new_dct ku v) >>
  ret new_dct.

(** No built-in type is called [unicode], so the second branch of the
    loop is never taken; it is kept as the source has it. The dict made
    for [new_dict] is not used: the loop writes into [dct], and [dct] is
    what is returned. *)
Definition str_dict_values (dct : pyobj) : M pyobj :=
  require (isinstance_dict dct) not_a_dict >>
  let* ks := keys dct in
  require (forallb is_str ks) not_all_keys >>
  let* new_dict := new_dict in
  let* its := items dct in
  for_each its (λ '(k, v),
    let* v :=
      if decide (type_name v = "bytes") then call_decode v
      else if decide (type_name v = "unicode") then call_encode v
      else ret v in
    setitem dct k (VStr (py_str v))) >>
  ret dct.

Definition repr_dict_values (dct : pyobj) : M pyobj :=
  require (isinstance_dict dct) not_a_dict >>
  let* ks := keys dct in
  require (forallb is_str ks) not_all_keys >>
  let* new_dict := str_dict_values dct in
  let* its := items dct in
  for_each its (λ '(k, v),
    setitem dct k (VStr (replace squote "" (py_repr v)))) >>
  ret dct.

(** After the check of [pfx], ["{pfx}{k}".format(pfx=pfx, k=k)] is the
    prefix followed by [str(k)]. *)
Definition prefix_dict_keys (pfx dct : pyobj) : M pyobj :=
  match pfx with
  | Atom (VStr pfx) =>
      require (isinstance_dict dct) not_a_dict >>
      let* ks := keys dct in
      require (forallb is_str ks) not_all_keys >>
      let* new_dict := new_dict in
      let* its := items dct in
      for_each its (λ '(k, v),
        let k := VStr (pfx +:+ py_str k) in
        setitem new_dict k v) >>
      ret new_dict
  | _ => raise (TypeError "prefix is not of type str")
  end.

(** ["-D{name}={value!r}".format(name=name.upper(), value=value)] *)
Definition build_arg (name value : pyval) : M string :=
  let* name := call_upper name in
  ret ("-D" +:+ py_str name +:+ "=" +:+ py_repr value).

Definition gen_build_args_from_dict (dct : pyobj) : M string :=
  let* ks := keys dct in
  require (forallb is_str ks) not_all_keys >>
  let* vs := values dct in
  require (forallb is_str vs) not_all_values >>
  let* its := items dct in
  let* build_arg_parts := map_m (λ '(name, value), build_arg name value) its in
  ret (join " " build_arg_parts).

(** The parts the generator yields, in order; its checks run when the
    first part is asked for, which [list(...)] in the caller does. *)
Definition string_to_part_list (string : pyobj) : M (list String.string) :=
  let min_length := 8 in
  match string with
  | Atom (VStr string) =>
      require (negb (len string <? min_length)%nat)
        (ValueError "string not long enought") >>
      ret (map (λ idx, take idx string)
             (seq min_length (len string + 1 - min_length)))
  | _ => raise (TypeError "no str given")
  end.

(** ["GIT_COMMIT_HASH_{length}_DIGITS".format(length=...)] *)
Definition hash_key (length : nat) : string :=
  "GIT_COMMIT_HASH_" +:+ of_nat length +:+ "_DIGITS".

Definition get_hash_arg_pairs (hash : pyobj) : M pyobj :=
  let* hash_parts := string_to_part_list hash in
  let* hash_pairs := new_dict in
  for_each hash_parts (λ hast_part,
    let key := hash_key (len hast_part) in
    setitem hash_pairs (VStr key) (VStr hast_part)) >>
  ret hash_pairs.

(** *** The driver *)

(** The two optional paths of the command line. *)
Record options : Type := {
  opt_json : option string;
  opt_header : option string;
}.

(** What the version-control library and the clock hand to [main]; the
    two dates are given as [format_time] returns them. *)
Record repo_head : Type := {
  hexsha : string;
  branch : pyval;
  author : pyval;
  authored_date : pyval;
  build_date : pyval;
  message : pyval;
}.

(** What a run that completes has written. The JSON file is given by
    the mapping handed to [json.dumps]. *)
Record output : Type := {
  json_file : option (string * dict);
  header_file : option (string * string);
  stdout : string;
  stderr : list string;
}.

(** [dict(k1=v1, ...)] *)
Definition dict_of (entries : dict) : M pyobj :=
  let* d := new_dict in
  for_each entries (λ '(k, v), setitem d k v) >>
  ret d.

Definition main (args : options) (repo : repo_head) : M output :=
  let* git_info := dict_of [
    (VStr "commit_hash", VStr (hexsha repo));
    (VStr "commit_hash_short", VStr (take 8 (hexsha repo)));
    (VStr "branch", branch repo);
    (VStr "author", author repo);
    (VStr "authored_date", authored_date repo);
    (VStr "build_date", build_date repo);
    (VStr "commit_msg", message repo)
  ] in
  let* json :=
    match opt_json args with
    | Some path =>
        let* content := str_dict_values git_info in
        let* content := items content in
        ret (Some (path, content))
    | None => ret None
    end in
  let* git_info := repr_dict_values git_info in
  let* git_info := prefix_dict_keys (Atom (VStr "git_")) git_info in
  let* commit_hash := getitem git_info (VStr "git_commit_hash") in
  let* hash_info := get_hash_arg_pairs (Atom commit_hash) in
  let* hash_info := repr_dict_values hash_info in
  let* upper_info := upper_dict_keys git_info in
  let* version_file := gen_version_file_lines upper_info in
  let* hash_lines := gen_version_file_lines hash_info in
  let version_file := version_file ++ hash_lines in
  let version_file := join (chr newline) version_file in
  let version_file := "#pragma once" +:+ chr newline +:+ version_file in
  let header :=
    match opt_header args with
    | Some path => Some (path, version_file)
    | None => None
    end in
  let* build_args := gen_build_args_from_dict git_info in
  let build_args := build_args +:+ " " in
  let* hash_args := gen_build_args_from_dict hash_info in
  let build_args := build_args +:+ hash_args in
  let* lines := lift (Shlex.split build_args) in
  ret {| json_file := json; header_file := header;
         stdout := build_args; stderr := lines |}.

End GitInfo.

(* ===================================================================== *)
(** ** Vocabulary of the statements *)
(* ===================================================================== *)

Import PyStr PyObj GitInfo.
Local Open Scope py_scope.

(** Assigning, in order, the entry [gk x], [gv x] for every [x]. *)
Definition assign_all {A} (gk gv : A → pyval) (d : dict) (xs : list A)
  : dict :=
  foldl (λ acc x, dict_set (gk x) (gv x) acc) d xs.

(** A mapping with textual keys, and one with textual keys and values, as
    dict contents. *)
Definition str_keyed (kd : list (string * pyval)) : dict :=
  prod_map VStr id <$> kd.

Definition textual (sd : list (string * string)) : dict :=
  prod_map VStr VStr <$> sd.

(** The header line of a textual entry. *)
Definition header_line (e : string * string) : string :=
  "#define " +:+ e.1 +:+ " " +:+ chr dquote +:+ e.2 +:+ chr dquote.

(** The build argument of a textual entry. *)
Definition arg_token (e : string * string) : string :=
  "-D" +:+ upper e.1 +:+ "=" +:+ repr e.2.

Definition upper_key (k : pyval) : pyval :=
  match k with
  | VStr s => VStr (upper s)
  | VBytes b => VBytes (upper b)
  | VInt _ => k
  end.

(** The text [str_dict_values] makes of a value: the payload of a byte
    string, [str(v)] of anything else. *)
Definition text_of (v : pyval) : string :=
  match v with
  | VStr s => s
  | VInt z => of_int z
  | VBytes b => b
  end.

(** What the loop of [str_dict_values] stores for a value. *)
Definition stringify (v : pyval) : pyval := VStr (text_of v).

(** [repr] with the single quotes taken out. *)
Definition strip_repr (s : string) : string := replace squote "" (repr s).

(** What the loop of [repr_dict_values] stores for a value. *)
Definition escape_str (v : pyval) : pyval :=
  VStr (replace squote "" (py_repr v)).

(** What [repr_dict_values] leaves for a value. *)
Definition escape_val (v : pyval) : pyval := VStr (strip_repr (text_of v)).

(** The escaped form of a mapping with textual keys. *)
Definition escaped (kd : list (string * pyval)) : list (string * string) :=
  prod_map id (λ v, strip_repr (text_of v)) <$> kd.

(** The partitions of [s], as [get_hash_arg_pairs] stores them. *)
Definition hash_entries (s : string) : dict :=
  (λ L, (VStr (hash_key L), VStr (take L s))) <$> seq 8 (len s - 7).

(** [P] holds of every character of [s]. *)
Fixpoint all_chars (P : ascii → bool) (s : string) : bool :=
  match s with
  | EmptyString => true
  | String c s' => P c && all_chars P s'
  end.

(** A value [str_dict_values] turns into the text [text_of]: text, an
    integer, or a byte string of ASCII data, which [decode('utf-8')] reads
    as it stands. *)
Definition decodable (v : pyval) : bool :=
  match v with
  | VBytes b => all_chars (Utf8.between 0 127) b
  | _ => true
  end.

(** A character the shell lexer reads as itself: no whitespace, no quote,
    no backslash. *)
Definition plain (c : ascii) : bool :=
  negb (Shlex.whitespace c || Shlex.quotes c || Shlex.escape c).

Definition plain_str (s : string) : bool := all_chars plain s.

(** The word the shell lexer reads from the build argument of an entry
    whose value has no single quote. *)
Definition shell_word (e : string * string) : string :=
  "-D" +:+ upper e.1 +:+ "=" +:+ repr_body squote e.2.






(** The record [main] collects, by field name. *)
Definition collected (repo : repo_head) : list (string * pyval) :=
  [("commit_hash", VStr (hexsha repo));
   ("commit_hash_short", VStr (take 8 (hexsha repo)));
   ("branch", branch repo);
   ("author", author repo);
   ("authored_date", authored_date repo);
   ("build_date", build_date repo);
   ("commit_msg", message repo)].

(** The entries [main] renders: the escaped record under prefixed keys,
    and the escaped partitions of the (escaped) commit hash. *)
Definition git_entries (repo : repo_head) : list (string * string) :=
  prod_map (String.app "git_") id <$> escaped (collected repo).

Definition hash_parts (s : string) : list (string * pyval) :=
  (λ L, (hash_key L, VStr (take L s))) <$> seq 8 (len s - 7).

Definition hash_defines (repo : repo_head) : list (string * string) :=
  escaped (hash_parts (strip_repr (hexsha repo))).

(** The header text of [main]. *)
Definition header_text (repo : repo_head) : string :=
  "#pragma once" +:+ chr newline
  +:+ join (chr newline)
        ((header_line <$> (prod_map upper id <$> git_entries repo))
         ++ (header_line <$> hash_defines repo)).

(** The record of the end-to-end test: the commit identifier is fixed,
    the other fields are any text. *)
Definition test_repo (branch author authored build msg : string)
  : repo_head :=
  {| hexsha := "1234567890abcdef"; branch := VStr branch;
     author := VStr author; authored_date := VStr authored;
     build_date := VStr build; message := VStr msg |}.

(** Escaping, rendering and re-splitting, as the driver chains them. *)
Definition escape_render_split (dct : pyobj) : M (list string) :=
  let* dct := repr_dict_values dct in
  let* build_args := gen_build_args_from_dict dct in
  lift (Shlex.split build_args).




(** Printable ASCII other than the single quote and the backslash: the
    characters [repr] writes as they stand, whichever quote it picks. *)
Definition quiet (c : ascii) : bool :=
  let n := nat_of_ascii c in
  (32 <=? n) && (n <? 127) && negb (bool_decide (c = squote))
  && negb (bool_decide (c = backslash)).

Definition quiet_str (s : string) : bool := all_chars quiet s.



(** Prefixing and then upper-casing the keys of a dict; upper-casing and
    then prefixing with the upper-cased prefix. *)
Definition prefix_then_upper (pfx : string) (dct : pyobj) : M dict :=
  let* prefixed := prefix_dict_keys (Atom (VStr pfx)) dct in
  let* uppered := upper_dict_keys prefixed in
  items uppered.

Definition upper_then_prefix (pfx : string) (dct : pyobj) : M dict :=
  let* uppered := upper_dict_keys dct in
  let* prefixed := prefix_dict_keys (Atom (VStr (upper pfx))) uppered in
  items prefixed.



(* ===================================================================== *)
(** ** The examples of the docstrings *)
(* ===================================================================== *)

Example upper_dict_keys_doctest :
  upper_dict_keys (Ref 0) [textual [("a", "abc"); ("b", "def")]]
  = (Ok (Ref 1),
     [textual [("a", "abc"); ("b", "def")];
      textual [("A", "abc"); ("B", "def")]]).
Proof. reflexivity. Qed.

Example upper_dict_keys_no_dict :
  upper_dict_keys (Atom (VStr "no dict")) []
  = (Raise (TypeError "dct is not of type dict"), []).
Proof. reflexivity. Qed.

Example str_dict_values_doctest :
  (let* r := str_dict_values (Ref 0) in items r)
    [[(VStr "a", VInt 123); (VStr "b", VStr "abc"); (VStr "c", VStr "def")]]
  = (Ok (textual [("a", "123"); ("b", "abc"); ("c", "def")]),
     [textual [("a", "123"); ("b", "abc"); ("c", "def")]; []]).
Proof. reflexivity. Qed.

Example repr_dict_values_doctest :
  (let* r := repr_dict_values (Ref 0) in items r)
    [[(VStr "a", VInt 123); (VStr "b", VStr ("abc" +:+ chr newline));
      (VStr "c", VStr "def")]]
  = (Ok (textual [("a", "123"); ("b", "abc" +:+ chr backslash +:+ "n");
                  ("c", "def")]),
     [textual [("a", "123"); ("b", "abc" +:+ chr backslash +:+ "n");
               ("c", "def")]; []]).
Proof. reflexivity. Qed.

Example gen_version_file_lines_bad_key :
  gen_version_file_lines (Ref 0) [[(VInt 123, VStr "abc")]]
  = (Raise (TypeError "not all keys of the dict are of type str"),
     [[(VInt 123, VStr "abc")]]).
Proof. reflexivity. Qed.

Example gen_version_file_lines_bad_value :
  gen_version_file_lines (Ref 0) [[(VStr "abc", VInt 123)]]
  = (Raise (TypeError "not all values of the dict are of type str"),
     [[(VStr "abc", VInt 123)]]).
Proof. reflexivity. Qed.

Example string_to_part_list_doctest :
  string_to_part_list (Atom (VStr "abcdefghij")) []
  = (Ok ["abcdefgh"; "abcdefghi"; "abcdefghij"], []).
Proof. reflexivity. Qed.

Example repr_picks_double_quotes :
  repr "it's" = chr dquote +:+ "it's" +:+ chr dquote.
Proof. reflexivity. Qed.

Example repr_escapes_the_quote :
  repr ("it's " +:+ chr dquote)
  = "'it" +:+ chr backslash +:+ "'s " +:+ chr dquote +:+ "'".
Proof. reflexivity. Qed.

Example shlex_split_words :
  Shlex.split ("-DA='x y' " +:+ chr dquote +:+ "b c" +:+ chr dquote +:+ " d")
  = Ok ["-DA=x y"; "b c"; "d"].
Proof. reflexivity. Qed.

Example shlex_split_open_quote :
  Shlex.split "-DA='x" = Raise (ValueError "No closing quotation").
Proof. reflexivity. Qed.

(** The decoder on some byte strings: [C3 A9] is U+00E9, [E2 82 AC] is
    U+20AC, [F0 9F 98 80] is U+1F600; [FF] is no lead byte, [C0 80] is an
    overlong form, [ED A0 80] a surrogate, [E2 82] is cut short, and
    [F4 90 80 80] is above U+10FFFF. *)
Example decode_two_bytes :
  Utf8.decode (String "195" (String "169" "")) = Some [233%N].
Proof. reflexivity. Qed.

Example decode_three_bytes :
  Utf8.decode (String "226" (String "130" (String "172" "")))
  = Some [8364%N].
Proof. reflexivity. Qed.

Example decode_four_bytes :
  Utf8.decode (String "240" (String "159" (String "152" (String "128" ""))))
  = Some [128512%N].
Proof. reflexivity. Qed.

Example decode_ill_formed :
  Utf8.decode (String "255" "") = None
  ∧ Utf8.decode (String "192" (String "128" "")) = None
  ∧ Utf8.decode (String "237" (String "160" (String "128" ""))) = None
  ∧ Utf8.decode (String "226" (String "130" "")) = None
  ∧ Utf8.decode (String "244" (String "144" (String "128" (String "128" ""))))
    = None
  ∧ Utf8.decode ("ab" +:+ String "128" "c") = None.
Proof. repeat split. Qed.

Example call_decode_text :
  call_decode (VBytes "abc") [] = (Ok (VStr "abc"), [])
  ∧ call_decode (VBytes (String "195" (String "169" ""))) []
    = (Ok (VStr (String "233" "")), [])
  ∧ call_decode (VBytes (String "255" "")) []
    = (Raise (UnicodeDecodeError (String "255" "")), [])
  ∧ call_decode (VStr "abc") []
    = (Raise (AttributeError "'str' object has no attribute 'decode'"), []).
Proof. repeat split. Qed.

(* ===================================================================== *)
(** ** Reasoning about the store *)
(* ===================================================================== *)

Section Store.

Lemma bind_ok {A B} (m : M A) (f : A → M B) h a h' :
  m h = (Ok a, h') → bind m f h = f a h'.
Proof. unfold bind. by intros ->. Qed.

Lemma bind_raise {A B} (m : M A) (f : A → M B) h e h' :
  m h = (Raise e, h') → bind m f h = (Raise e, h').
Proof. unfold bind. by intros ->. Qed.

Lemma deref_ok (h : heap) l d : h !! l = Some d → deref l h = (Ok d, h).
Proof. unfold deref. by intros ->. Qed.

Lemma keys_ok (h : heap) l d :
  h !! l = Some d → keys (Ref l) h = (Ok (d.*1), h).
Proof. intros H. simpl. by rewrite (bind_ok _ _ _ _ _ (deref_ok _ _ _ H)). Qed.

Lemma values_ok (h : heap) l d :
  h !! l = Some d → values (Ref l) h = (Ok (d.*2), h).
Proof. intros H. simpl. by rewrite (bind_ok _ _ _ _ _ (deref_ok _ _ _ H)). Qed.

Lemma items_ok (h : heap) l d :
  h !! l = Some d → items (Ref l) h = (Ok d, h).
Proof. apply deref_ok. Qed.

Lemma setitem_ok (h : heap) l d k v :
  h !! l = Some d →
  setitem (Ref l) k v h = (Ok tt, <[l := dict_set k v d]> h).
Proof. intros H. simpl. by rewrite (bind_ok _ _ _ _ _ (deref_ok _ _ _ H)). Qed.

Lemma new_dict_ok (h : heap) :
  new_dict h = (Ok (Ref (length h)), h ++ [[]]).
Proof. done. Qed.

Lemma lookup_new (h : heap) (d : dict) : (h ++ [d]) !! length h = Some d.
Proof. by rewrite lookup_app_r, Nat.sub_diag. Qed.

Lemma lookup_old (h : heap) (d d' : dict) l :
  h !! l = Some d → (h ++ [d']) !! l = Some d.
Proof. intros H. by apply lookup_app_l_Some. Qed.

Lemma insert_new (h : heap) (d d' : dict) :
  <[length h := d']> (h ++ [d]) = h ++ [d'].
Proof.
  rewrite insert_app_r_alt by lia. by rewrite Nat.sub_diag.
Qed.

(** A loop whose body assigns one entry of the dict at [l] per element
    folds [dict_set] over the elements. *)
Lemma for_each_setitem {A} (xs : list A) (body : A → M unit)
    (gk gv : A → pyval) l :
  (∀ x h, x ∈ xs → body x h = setitem (Ref l) (gk x) (gv x) h) →
  ∀ (h : heap) d, h !! l = Some d →
    for_each xs body h =
      (Ok tt, <[l := foldl (λ acc x, dict_set (gk x) (gv x) acc) d xs]> h).
Proof.
  induction xs as [|x xs IH]; intros Hbody h d Hl; simpl.
  - by rewrite list_insert_id.
  - rewrite (bind_ok _ _ h tt (<[l := dict_set (gk x) (gv x) d]> h)).
    + rewrite (IH (λ y h' Hy, Hbody y h' (list_elem_of_further _ _ _ Hy))
                 _ (dict_set (gk x) (gv x) d)).
      * by rewrite list_insert_insert_eq.
      * apply list_lookup_insert_eq. by eapply lookup_lt_Some.
    + rewrite Hbody by left. by apply setitem_ok.
Qed.

End Store.

(* ===================================================================== *)
(** ** Assigning entries of a dict *)
(* ===================================================================== *)

Section DictSet.

Implicit Types (d : dict) (k v : pyval).

Lemma dict_set_fresh k v d : k ∉ d.*1 → dict_set k v d = d ++ [(k, v)].
Proof.
  induction d as [|[k' v'] d IH]; simpl; intros Hk; [done|].
  apply not_elem_of_cons in Hk as [Hne Hk].
  destruct (decide (k = k')); [done|]. by rewrite IH.
Qed.

Lemma dict_set_mid k v v0 (pre post : dict) :
  k ∉ pre.*1 →
  dict_set k v (pre ++ (k, v0) :: post) = pre ++ (k, v) :: post.
Proof.
  induction pre as [|[k' v'] pre IH]; simpl; intros Hk.
  - by destruct (decide (k = k)).
  - apply not_elem_of_cons in Hk as [Hne Hk].
    destruct (decide (k = k')); [done|]. by rewrite IH.
Qed.

Lemma dict_set_keys_present k v d :
  k ∈ d.*1 → (dict_set k v d).*1 = d.*1.
Proof.
  induction d as [|[k' v'] d IH]; csimpl; intros Hk.
  - by apply elem_of_nil in Hk.
  - destruct (decide (k = k')); [done|]. csimpl.
    apply elem_of_cons in Hk as [?|Hk]; [done|]. by rewrite IH.
Qed.

Lemma dict_set_length_present k v d :
  k ∈ d.*1 → length (dict_set k v d) = length d.
Proof.
  intros Hk. rewrite <- (length_fmap fst (dict_set k v d)).
  rewrite (dict_set_keys_present k v d Hk). apply length_fmap.
Qed.

Lemma dict_set_length_le k v d : length (dict_set k v d) ≤ S (length d).
Proof.
  destruct (decide (k ∈ d.*1)) as [Hk|Hk].
  - rewrite dict_set_length_present by done. lia.
  - rewrite dict_set_fresh, length_app by done. simpl. lia.
Qed.

Lemma dict_set_key_in k v d : k ∈ (dict_set k v d).*1.
Proof.
  induction d as [|[k' v'] d IH]; simpl.
  - apply list_elem_of_here.
  - destruct (decide (k = k')) as [->|]; simpl.
    + apply list_elem_of_here.
    + by apply list_elem_of_further.
Qed.

Lemma dict_set_keys_mono k v k' d :
  k' ∈ d.*1 → k' ∈ (dict_set k v d).*1.
Proof.
  destruct (decide (k ∈ d.*1)) as [Hk|Hk].
  - by rewrite dict_set_keys_present.
  - rewrite dict_set_fresh, fmap_app by done. intros ?.
    apply elem_of_app. by left.
Qed.

Lemma dict_get_set_eq k v d : dict_get k (dict_set k v d) = Some v.
Proof.
  induction d as [|[k' v'] d IH]; simpl.
  - by destruct (decide (k = k)).
  - destruct (decide (k = k')) as [->|Hne]; simpl.
    + by destruct (decide (k' = k')).
    + by destruct (decide (k = k')).
Qed.

Lemma dict_get_set_ne k k' v d :
  k ≠ k' → dict_get k' (dict_set k v d) = dict_get k' d.
Proof.
  intros Hne. induction d as [|[k0 v0] d IH]; simpl.
  - destruct (decide (k' = k)); [by subst|done].
  - destruct (decide (k = k0)) as [->|Hne0]; simpl.
    + by destruct (decide (k' = k0)); [subst|].
    + destruct (decide (k' = k0)); [done|]. apply IH.
Qed.

Section Fold.
Context {A : Type} (gk gv : A → pyval).

Lemma assign_all_keys_mono xs : ∀ d k, k ∈ d.*1 → k ∈ (assign_all gk gv d xs).*1.
Proof.
  induction xs as [|x xs IH]; simpl; intros d k Hk; [done|].
  apply IH. by apply dict_set_keys_mono.
Qed.

Lemma assign_all_length_le xs :
  ∀ d, length (assign_all gk gv d xs) ≤ length d + length xs.
Proof.
  induction xs as [|x xs IH]; simpl; intros d; [lia|].
  pose proof (IH (dict_set (gk x) (gv x) d)).
  pose proof (dict_set_length_le (gk x) (gv x) d). lia.
Qed.

(** Assigning keys that are new and pairwise different appends them. *)
Lemma assign_all_fresh xs :
  ∀ d, NoDup (gk <$> xs) → (∀ x, x ∈ xs → gk x ∉ d.*1) →
    assign_all gk gv d xs = d ++ ((λ x, (gk x, gv x)) <$> xs).
Proof.
  induction xs as [|x xs IH]; simpl; intros d Hnd Hfresh.
  - by rewrite app_nil_r.
  - apply NoDup_cons in Hnd as [Hx Hnd].
    rewrite dict_set_fresh by (apply Hfresh; left).
    rewrite IH; [by rewrite <- app_assoc|done|].
    intros y Hy. rewrite fmap_app. intros [Hin|Hin]%elem_of_app.
    + by apply (Hfresh y); [right|].
    + apply list_elem_of_singleton in Hin. simpl in Hin.
      apply Hx. rewrite <- Hin. by apply list_elem_of_fmap_2.
Qed.

(** The value read at a key is the one assigned last. *)
Lemma assign_all_last (pre post : list A) x d :
  (∀ y, y ∈ post → gk y ≠ gk x) →
  dict_get (gk x) (assign_all gk gv d (pre ++ x :: post)) = Some (gv x).
Proof.
  intros Hpost. unfold assign_all. rewrite foldl_app. simpl.
  set (d0 := foldl _ d pre). clearbody d0.
  assert (Hget : dict_get (gk x) (dict_set (gk x) (gv x) d0) = Some (gv x))
    by apply dict_get_set_eq.
  revert Hget. generalize (dict_set (gk x) (gv x) d0) as d1.
  induction post as [|y post IH]; simpl; intros d1 Hget; [done|].
  apply IH.
  - intros z Hz. apply Hpost. by right.
  - rewrite dict_get_set_ne; [done|]. apply Hpost. by left.
Qed.

(** A key assigned a second time does not add an entry. *)
Lemma assign_all_collision (pre post : list A) x y mid d :
  gk x = gk y →
  length (assign_all gk gv d (pre ++ x :: mid ++ y :: post))
    < length d + length (pre ++ x :: mid ++ y :: post).
Proof.
  intros Heq. unfold assign_all.
  rewrite foldl_app. simpl. rewrite foldl_app. simpl.
  set (d0 := foldl _ d pre).
  set (d1 := foldl _ (dict_set (gk x) (gv x) d0) mid).
  assert (Hin : gk y ∈ d1.*1).
  { rewrite <- Heq. apply (assign_all_keys_mono mid).
    apply dict_set_key_in. }
  pose proof (assign_all_length_le post (dict_set (gk y) (gv y) d1)) as H1.
  rewrite (dict_set_length_present _ _ _ Hin) in H1.
  pose proof (assign_all_length_le mid (dict_set (gk x) (gv x) d0)) as H2.
  pose proof (dict_set_length_le (gk x) (gv x) d0) as H3.
  pose proof (assign_all_length_le pre d) as H4.
  unfold assign_all in *. fold d0 in H4. fold d1 in H2.
  rewrite !length_app. simpl. rewrite !length_app. simpl. lia.
Qed.

End Fold.

(** Re-assigning every key of a well-formed dict, in order, maps over the
    values. *)
Lemma assign_all_in_place (f : pyval → pyval) (rest : dict) :
  ∀ pre : dict, NoDup ((pre ++ rest).*1) →
    assign_all fst (λ x, f x.2) (pre ++ rest) rest
    = pre ++ (prod_map id f <$> rest).
Proof.
  induction rest as [|[k v] rest IH]; simpl; intros pre Hnd; [done|].
  rewrite dict_set_mid.
  - replace (pre ++ (k, f v) :: rest) with ((pre ++ [(k, f v)]) ++ rest)
      by (by rewrite <- app_assoc).
    rewrite IH; [by rewrite <- app_assoc|].
    revert Hnd. rewrite !fmap_app. simpl. by rewrite <- app_assoc.
  - rewrite fmap_app in Hnd. apply NoDup_app in Hnd as (_ & Hdisj & _).
    intros Hin. apply (Hdisj _ Hin). simpl. left.
Qed.

End DictSet.

(* ===================================================================== *)
(** ** What each function computes *)
(* ===================================================================== *)

(** Settles a decidable closed statement by evaluating its decision. *)
Ltac decide_by_compute :=
  refine (bool_decide_unpack _ _); vm_compute; exact I.

Ltac run_with H :=
  first [ rewrite (bind_ok _ _ _ _ _ H) | rewrite (bind_raise _ _ _ _ _ H) ].

Section Specs.

Implicit Types (h : heap) (d : dict) (l : loc).

Lemma require_true e h : require true e h = (Ok tt, h).
Proof. done. Qed.

Lemma require_false e h : require false e h = (Raise e, h).
Proof. done. Qed.

Lemma str_keyed_keys kd : forallb is_str (str_keyed kd).*1 = true.
Proof. induction kd as [|[k v] kd IH]; [done|]. by csimpl. Qed.

Lemma textual_keys sd : forallb is_str (textual sd).*1 = true.
Proof. induction sd as [|[k v] sd IH]; [done|]. by csimpl. Qed.

Lemma textual_values sd : forallb is_str (textual sd).*2 = true.
Proof. induction sd as [|[k v] sd IH]; [done|]. by csimpl. Qed.

Lemma forallb_is_str_elem (vs : list pyval) v :
  forallb is_str vs = true → v ∈ vs → ∃ s, v = VStr s.
Proof.
  intros Hall Hin. apply list_elem_of_In in Hin.
  rewrite forallb_forall in Hall. specialize (Hall _ Hin).
  destruct v; try done. by eexists.
Qed.

Lemma forallb_is_str_false (vs : list pyval) v :
  v ∈ vs → is_str v = false → forallb is_str vs = false.
Proof.
  intros Hin Hv. destruct (forallb is_str vs) eqn:Hall; [|done].
  destruct (forallb_is_str_elem _ _ Hall Hin) as [s ->]. done.
Qed.

Lemma foldl_snoc_map {A B} (f : A → B) (g : list B → A → list B)
    (xs : list A) :
  (∀ acc x, g acc x = acc ++ [f x]) →
  ∀ acc, foldl g acc xs = acc ++ (f <$> xs).
Proof.
  intros Hg. induction xs as [|x xs IH]; intros acc; csimpl.
  - by rewrite app_nil_r.
  - by rewrite IH, Hg, <- app_assoc.
Qed.

(** *** [gen_version_file_lines] *)

Lemma gen_version_file_lines_ok h l d :
  h !! l = Some d →
  forallb is_str d.*1 = true → forallb is_str d.*2 = true →
  gen_version_file_lines (Ref l) h
  = (Ok ((λ e, define_line e.1 e.2) <$> d), h).
Proof.
  intros Hl Hk Hv. unfold gen_version_file_lines.
  run_with (keys_ok _ _ _ Hl). rewrite Hk. run_with (require_true not_all_keys h).
  run_with (values_ok _ _ _ Hl). rewrite Hv.
  run_with (require_true not_all_values h).
  run_with (items_ok _ _ _ Hl). unfold ret. do 2 f_equal.
  rewrite (foldl_snoc_map (λ e, define_line e.1 e.2)); [done|].
  by intros acc [k v].
Qed.

Lemma gen_version_file_lines_textual h l sd :
  h !! l = Some (textual sd) →
  gen_version_file_lines (Ref l) h = (Ok (header_line <$> sd), h).
Proof.
  intros Hl.
  rewrite (gen_version_file_lines_ok _ _ _ Hl)
    by auto using textual_keys, textual_values.
  do 2 f_equal. unfold textual. rewrite <- list_fmap_compose.
  apply list_fmap_ext. by intros i [k v] _.
Qed.

(** *** [gen_build_args_from_dict] *)

Lemma call_upper_ok k h : is_str k = true → call_upper k h = (Ok (upper_key k), h).
Proof. by destruct k. Qed.

Lemma map_m_pure {A B} (f : A → M B) (g : A → B) (xs : list A) h :
  (∀ x, x ∈ xs → f x h = (Ok (g x), h)) →
  map_m f xs h = (Ok (g <$> xs), h).
Proof.
  induction xs as [|x xs IH]; intros Hf; csimpl; [done|].
  run_with (Hf x (list_elem_of_here _ _)).
  run_with (IH (λ y Hy, Hf y (list_elem_of_further _ _ _ Hy))). done.
Qed.

Lemma gen_build_args_from_dict_ok h l d :
  h !! l = Some d →
  forallb is_str d.*1 = true → forallb is_str d.*2 = true →
  gen_build_args_from_dict (Ref l) h
  = (Ok (join " " ((λ e, "-D" +:+ py_str (upper_key e.1) +:+ "="
                         +:+ py_repr e.2) <$> d)), h).
Proof.
  intros Hl Hk Hv. unfold gen_build_args_from_dict.
  run_with (keys_ok _ _ _ Hl). rewrite Hk. run_with (require_true not_all_keys h).
  run_with (values_ok _ _ _ Hl). rewrite Hv.
  run_with (require_true not_all_values h).
  run_with (items_ok _ _ _ Hl).
  erewrite bind_ok; [done|].
  apply map_m_pure. intros [k v] Hin. unfold build_arg.
  destruct (forallb_is_str_elem _ k Hk) as [s ->].
  { by apply (list_elem_of_fmap_2 fst _ (k, v)). }
  by rewrite (bind_ok _ _ _ _ _ (call_upper_ok (VStr s) h eq_refl)).
Qed.

Lemma gen_build_args_from_dict_textual h l sd :
  h !! l = Some (textual sd) →
  gen_build_args_from_dict (Ref l) h = (Ok (join " " (arg_token <$> sd)), h).
Proof.
  intros Hl.
  rewrite (gen_build_args_from_dict_ok _ _ _ Hl)
    by auto using textual_keys, textual_values.
  do 3 f_equal. unfold textual. rewrite <- list_fmap_compose.
  apply list_fmap_ext. by intros i [k v] _.
Qed.

Lemma gen_build_args_from_dict_bad_key h l d :
  h !! l = Some d → forallb is_str d.*1 = false →
  gen_build_args_from_dict (Ref l) h = (Raise not_all_keys, h).
Proof.
  intros Hl Hk. unfold gen_build_args_from_dict.
  run_with (keys_ok _ _ _ Hl). rewrite Hk.
  by run_with (require_false not_all_keys h).
Qed.

Lemma gen_build_args_from_dict_bad_value h l d :
  h !! l = Some d →
  forallb is_str d.*1 = true → forallb is_str d.*2 = false →
  gen_build_args_from_dict (Ref l) h = (Raise not_all_values, h).
Proof.
  intros Hl Hk Hv. unfold gen_build_args_from_dict.
  run_with (keys_ok _ _ _ Hl). rewrite Hk. run_with (require_true not_all_keys h).
  run_with (values_ok _ _ _ Hl). rewrite Hv.
  by run_with (require_false not_all_values h).
Qed.

(** *** [upper_dict_keys] *)

Lemma upper_dict_keys_ok h l d :
  h !! l = Some d → forallb is_str d.*1 = true →
  upper_dict_keys (Ref l) h
  = (Ok (Ref (length h)),
     h ++ [assign_all (λ e, upper_key e.1) snd [] d]).
Proof.
  intros Hl Hk. unfold upper_dict_keys. simpl isinstance_dict.
  run_with (require_true not_a_dict h).
  run_with (keys_ok _ _ _ Hl). rewrite Hk. run_with (require_true not_all_keys h).
  run_with (new_dict_ok h).
  run_with (items_ok _ _ _ (lookup_old h d [] l Hl)).
  erewrite bind_ok.
  2:{ apply (for_each_setitem d _ (λ e, upper_key e.1) snd (length h)).
      - intros [k v] h' Hin.
        destruct (forallb_is_str_elem _ k Hk) as [s ->].
        { by apply (list_elem_of_fmap_2 fst _ (k, v)). }
        by rewrite (bind_ok _ _ _ _ _ (call_upper_ok (VStr s) h' eq_refl)).
      - apply lookup_new. }
  by rewrite insert_new.
Qed.

(** *** [str_dict_values] and [repr_dict_values] *)

Lemma decode_ascii b :
  all_chars (Utf8.between 0 127) b = true →
  Utf8.decode b = Some (Utf8.byte <$> list_ascii_of_string b).
Proof.
  induction b as [|c b IH]; [done|]. cbn [all_chars].
  intros [Hc Hb]%andb_prop. cbn [Utf8.decode]. rewrite Hc, (IH Hb). done.
Qed.

Lemma text_bytes b :
  Utf8.text (Utf8.byte <$> list_ascii_of_string b) = Some b.
Proof.
  induction b as [|c b IH]; [done|].
  cbn [list_ascii_of_string fmap list_fmap Utf8.text].
  change (list_fmap _ _ Utf8.byte (list_ascii_of_string b))
    with (Utf8.byte <$> list_ascii_of_string b).
  rewrite IH. unfold Utf8.byte at 1 2.
  destruct (N.ltb_spec (N_of_ascii c) 256) as [_|Hge].
  - by rewrite ascii_N_embedding.
  - pose proof (N_ascii_bounded c). lia.
Qed.

Lemma call_decode_ascii b h :
  all_chars (Utf8.between 0 127) b = true →
  call_decode (VBytes b) h = (Ok (VStr b), h).
Proof.
  intros Hb. unfold call_decode. by rewrite (decode_ascii b Hb), text_bytes.
Qed.

Lemma str_dict_values_body (dct : pyobj) k v h :
  decodable v = true →
  bind (if decide (type_name v = "bytes") then call_decode v
        else if decide (type_name v = "unicode") then call_encode v
        else ret v)
       (λ v, setitem dct k (VStr (py_str v))) h
  = setitem dct k (stringify v) h.
Proof.
  destruct v as [s|z|b]; intros Hv; [done|done|].
  change (bind (call_decode (VBytes b))
            (λ v, setitem dct k (VStr (py_str v))) h
          = setitem dct k (VStr b) h).
  by rewrite (bind_ok _ _ _ _ _ (call_decode_ascii b h Hv)).
Qed.

Lemma str_dict_values_fold h l d :
  h !! l = Some d → forallb is_str d.*1 = true →
  Forall (λ e, decodable e.2 = true) d →
  str_dict_values (Ref l) h
  = (Ok (Ref l),
     <[l := assign_all fst (λ e, stringify e.2) d d]> (h ++ [[]])).
Proof.
  intros Hl Hk Hdec. unfold str_dict_values. simpl isinstance_dict.
  run_with (require_true not_a_dict h).
  run_with (keys_ok _ _ _ Hl). rewrite Hk. run_with (require_true not_all_keys h).
  run_with (new_dict_ok h).
  run_with (items_ok _ _ _ (lookup_old h d [] l Hl)).
  erewrite bind_ok; [done|].
  apply (for_each_setitem d _ fst (λ e, stringify e.2) l).
  - intros [k v] h' Hin. apply str_dict_values_body.
    exact (proj1 (Forall_forall _ _) Hdec _ Hin).
  - by apply lookup_old.
Qed.

Lemma str_dict_values_ok h l d :
  h !! l = Some d → forallb is_str d.*1 = true → NoDup d.*1 →
  Forall (λ e, decodable e.2 = true) d →
  str_dict_values (Ref l) h
  = (Ok (Ref l), <[l := prod_map id stringify <$> d]> (h ++ [[]])).
Proof.
  intros Hl Hk Hnd Hdec. rewrite (str_dict_values_fold _ _ _ Hl Hk Hdec).
  do 2 f_equal. exact (assign_all_in_place stringify d [] Hnd).
Qed.

Lemma fmap_fst_prod_map_id (f : pyval → pyval) d :
  (prod_map id f <$> d).*1 = d.*1.
Proof.
  rewrite <- list_fmap_compose. apply list_fmap_ext. by intros i [k v] _.
Qed.

Lemma repr_dict_values_ok h l d :
  h !! l = Some d → forallb is_str d.*1 = true → NoDup d.*1 →
  Forall (λ e, decodable e.2 = true) d →
  repr_dict_values (Ref l) h
  = (Ok (Ref l), <[l := prod_map id escape_val <$> d]> (h ++ [[]])).
Proof.
  intros Hl Hk Hnd Hdec. unfold repr_dict_values. simpl isinstance_dict.
  run_with (require_true not_a_dict h).
  run_with (keys_ok _ _ _ Hl). rewrite Hk. run_with (require_true not_all_keys h).
  run_with (str_dict_values_ok _ _ _ Hl Hk Hnd Hdec).
  set (d1 := prod_map id stringify <$> d).
  assert (Hl1 : (<[l := d1]> (h ++ [[]])) !! l = Some d1).
  { apply list_lookup_insert_eq. rewrite length_app.
    apply lookup_lt_Some in Hl. lia. }
  run_with (items_ok _ _ _ Hl1).
  erewrite bind_ok.
  2:{ apply (for_each_setitem d1 _ fst
               (λ e, VStr (replace squote "" (py_repr e.2))) l); [|done].
      by intros [k v] h' _. }
  unfold ret. rewrite list_insert_insert_eq. do 2 f_equal.
  assert (Hnd1 : NoDup ([] ++ d1).*1).
  { simpl. unfold d1. by rewrite fmap_fst_prod_map_id. }
  etransitivity; [exact (assign_all_in_place escape_str d1 [] Hnd1)|].
  rewrite app_nil_l. unfold d1. rewrite <- list_fmap_compose.
  apply list_fmap_ext. by intros i [k [s|z|b]] _.
Qed.

(** *** [prefix_dict_keys] *)

Lemma prefix_dict_keys_fold pfx h l d :
  h !! l = Some d → forallb is_str d.*1 = true →
  prefix_dict_keys (Atom (VStr pfx)) (Ref l) h
  = (Ok (Ref (length h)),
     h ++ [assign_all (λ e, VStr (pfx +:+ py_str e.1)) snd [] d]).
Proof.
  intros Hl Hk. unfold prefix_dict_keys. simpl isinstance_dict.
  run_with (require_true not_a_dict h).
  run_with (keys_ok _ _ _ Hl). rewrite Hk. run_with (require_true not_all_keys h).
  run_with (new_dict_ok h).
  run_with (items_ok _ _ _ (lookup_old h d [] l Hl)).
  erewrite bind_ok.
  2:{ apply (for_each_setitem d _ (λ e, VStr (pfx +:+ py_str e.1)) snd
               (length h)).
      - by intros [k v] h' _.
      - apply lookup_new. }
  by rewrite insert_new.
Qed.

#[global] Instance VStr_inj : Inj (=) (=) VStr.
Proof. by intros ?? [= ->]. Qed.

Lemma prefix_dict_keys_ok pfx h l kd :
  h !! l = Some (str_keyed kd) → NoDup kd.*1 →
  prefix_dict_keys (Atom (VStr pfx)) (Ref l) h
  = (Ok (Ref (length h)),
     h ++ [str_keyed (prod_map (String.app pfx) id <$> kd)]).
Proof.
  intros Hl Hnd.
  rewrite (prefix_dict_keys_fold _ _ _ _ Hl (str_keyed_keys kd)).
  do 3 f_equal. rewrite assign_all_fresh.
  - rewrite app_nil_l. unfold str_keyed. rewrite <- !list_fmap_compose.
    apply list_fmap_ext. by intros i [k v] _.
  - unfold str_keyed. rewrite <- list_fmap_compose.
    assert (Heq : (λ e : pyval * pyval, VStr (pfx +:+ py_str e.1))
                    ∘ prod_map VStr id <$> kd
                  = VStr ∘ String.app pfx <$> kd.*1).
    { rewrite <- list_fmap_compose. apply list_fmap_ext. by intros i [k v] _. }
    rewrite Heq. apply NoDup_fmap_2; [apply _|done].
  - intros x _. apply not_elem_of_nil.
Qed.

(** *** [string_to_part_list] and [get_hash_arg_pairs] *)

Lemma string_length_app (s t : string) :
  String.length (s +:+ t) = String.length s + String.length t.
Proof.
  induction s as [|c s IH]; [done|].
  change (S (String.length (s +:+ t)) = S (String.length s) + String.length t).
  by rewrite IH.
Qed.

Lemma string_app_inj_r (t s1 s2 : string) : s1 +:+ t = s2 +:+ t → s1 = s2.
Proof.
  revert s2. induction s1 as [|c s1 IH]; intros [|c' s2] Heq.
  - done.
  - apply (f_equal String.length) in Heq.
    rewrite !string_length_app in Heq. simpl in Heq. lia.
  - apply (f_equal String.length) in Heq.
    rewrite !string_length_app in Heq. simpl in Heq. lia.
  - change (String c (s1 +:+ t) = String c' (s2 +:+ t)) in Heq.
    injection Heq as -> Heq. f_equal. by apply IH.
Qed.

#[global] Instance hash_key_inj : Inj (=) (=) hash_key.
Proof.
  intros a b Heq. unfold hash_key in Heq.
  apply (inj (String.app _)) in Heq. apply string_app_inj_r in Heq.
  by apply (inj pretty) in Heq.
Qed.

Lemma len_take n s : n ≤ len s → len (take n s) = n.
Proof.
  unfold len. revert s.
  induction n as [|n IH]; intros [|c s] Hn; simpl in *; try done; try lia.
  f_equal. apply IH. lia.
Qed.

Lemma string_to_part_list_ok s h :
  8 ≤ len s →
  string_to_part_list (Atom (VStr s)) h
  = (Ok ((λ idx, take idx s) <$> seq 8 (len s - 7)), h).
Proof.
  intros Hlen. unfold string_to_part_list.
  destruct (Nat.ltb_spec (len s) 8) as [?|_]; [lia|]. simpl negb.
  run_with (require_true (ValueError "string not long enought") h).
  unfold ret. by replace (len s + 1 - 8) with (len s - 7) by lia.
Qed.

Lemma get_hash_arg_pairs_ok s h :
  8 ≤ len s →
  get_hash_arg_pairs (Atom (VStr s)) h
  = (Ok (Ref (length h)), h ++ [hash_entries s]).
Proof.
  intros Hlen. unfold get_hash_arg_pairs.
  run_with (string_to_part_list_ok s h Hlen).
  run_with (new_dict_ok h).
  set (parts := (λ idx, take idx s) <$> seq 8 (len s - 7)).
  erewrite bind_ok.
  2:{ apply (for_each_setitem parts _
               (λ p, VStr (hash_key (len p))) VStr (length h)).
      - done.
      - apply lookup_new. }
  unfold ret. rewrite insert_new. do 3 f_equal.
  assert (Hkeys : ∀ (f : nat → pyval),
             (λ idx, f (len (take idx s))) <$> seq 8 (len s - 7)
             = f <$> seq 8 (len s - 7)).
  { intros f. apply list_fmap_ext. intros i idx Hi.
    apply lookup_seq in Hi as [-> Hi]. rewrite len_take; [done|lia]. }
  change (assign_all (λ p, VStr (hash_key (len p))) VStr [] parts
          = hash_entries s).
  rewrite assign_all_fresh.
  - rewrite app_nil_l. unfold parts, hash_entries.
    rewrite <- list_fmap_compose. apply list_fmap_ext. intros i idx Hi.
    apply lookup_seq in Hi as [-> Hi]. unfold compose.
    rewrite len_take; [done|lia].
  - unfold parts. rewrite <- list_fmap_compose.
    replace (_ <$> seq 8 (len s - 7))
      with ((λ n, VStr (hash_key n)) <$> seq 8 (len s - 7)).
    + apply (NoDup_fmap_2 (λ n, VStr (hash_key n))), NoDup_seq.
    + symmetry. exact (Hkeys (λ n, VStr (hash_key n))).
  - intros x _. apply not_elem_of_nil.
Qed.

End Specs.

(* ===================================================================== *)
(** ** Text: quotes, escapes and shell words *)
(* ===================================================================== *)

Section Text.

Implicit Types (s t : string) (c : ascii).

Lemma str_app_cons c s t : String c s +:+ t = String c (s +:+ t).
Proof. done. Qed.

Lemma str_app_nil_l s : "" +:+ s = s.
Proof. done. Qed.

Lemma str_app_nil_r s : s +:+ "" = s.
Proof. induction s as [|c s IH]; [done|]. by rewrite str_app_cons, IH. Qed.

Lemma str_app_assoc s t u : (s +:+ t) +:+ u = s +:+ (t +:+ u).
Proof. induction s as [|c s IH]; [done|]. by rewrite !str_app_cons, IH. Qed.

Lemma mem_app c s t : mem c (s +:+ t) = mem c s || mem c t.
Proof.
  induction s as [|c' s IH]; [done|]. rewrite str_app_cons. simpl.
  by destruct (decide (c = c')).
Qed.

Lemma mem_strip c s : mem c (replace c "" s) = false.
Proof.
  induction s as [|c' s IH]; [done|]. simpl.
  destruct (decide (c' = c)) as [->|Hne]; [done|]. simpl.
  by destruct (decide (c = c')).
Qed.

Lemma mem_strip_repr s : mem squote (strip_repr s) = false.
Proof. apply mem_strip. Qed.

Lemma repr_char_no_squote c :
  c ≠ squote → mem squote (repr_char squote c) = false.
Proof.
  destruct c as [[] [] [] [] [] [] [] []]; intros Hne;
    solve [ reflexivity | by destruct Hne ].
Qed.

Lemma repr_body_no_squote s :
  mem squote s = false → mem squote (repr_body squote s) = false.
Proof.
  induction s as [|c s IH]; [done|]. simpl.
  destruct (decide (squote = c)) as [|Hne]; [done|]. intros Hs.
  rewrite mem_app, IH by done. by rewrite repr_char_no_squote.
Qed.

Lemma repr_no_squote s :
  mem squote s = false →
  repr s = String squote (repr_body squote s +:+ chr squote).
Proof. intros Hs. unfold repr, repr_quote. by rewrite Hs. Qed.

Lemma upper_char_plain c : plain c = true → plain (upper_char c) = true.
Proof. by destruct c as [[] [] [] [] [] [] [] []]. Qed.

Lemma upper_plain s : plain_str s = true → plain_str (upper s) = true.
Proof.
  unfold plain_str. induction s as [|c s IH]; [done|].
  cbn [upper all_chars]. intros [Hc Hs]%andb_prop.
  by rewrite upper_char_plain, IH.
Qed.

Lemma all_chars_app P s t :
  all_chars P (s +:+ t) = all_chars P s && all_chars P t.
Proof.
  induction s as [|c s IH]; [done|]. rewrite str_app_cons.
  cbn [all_chars]. by rewrite IH, andb_assoc.
Qed.

End Text.

Ltac str_norm :=
  repeat first [ rewrite str_app_cons | rewrite str_app_assoc
               | rewrite str_app_nil_l | rewrite str_app_nil_r ].

(* ===================================================================== *)
(** ** The lexer on rendered build arguments *)
(* ===================================================================== *)

Section Lexer.

Import Shlex.

Implicit Types (s t tok rest : string) (c : ascii).

Lemma plain_inv c :
  plain c = true →
  whitespace c = false ∧ quotes c = false ∧ escape c = false.
Proof.
  unfold plain. destruct (whitespace c), (quotes c), (escape c); naive_solver.
Qed.

(** Inside a word, plain characters are added to the token. *)
Lemma read_word_plain p :
  plain_str p = true → ∀ escapedstate quoted tok rest,
    read_tokens Word escapedstate quoted tok (p +:+ rest)
    = read_tokens Word escapedstate quoted (tok +:+ p) rest.
Proof.
  unfold plain_str. induction p as [|c p IH]; intros Hp esc q tok rest.
  - by rewrite str_app_nil_r.
  - cbn [all_chars] in Hp. apply andb_prop in Hp as [Hc Hp].
    destruct (plain_inv c Hc) as (Hw & Hq & He).
    rewrite str_app_cons. cbn [read_tokens]. rewrite Hw, Hq, He.
    rewrite (IH Hp). by rewrite str_app_assoc.
Qed.

(** Inside single quotes, everything up to the closing quote is added to
    the token as it stands, and the token counts as quoted. *)
Lemma read_quoted b :
  mem squote b = false → ∀ escapedstate quoted tok rest,
    read_tokens (Quote squote) escapedstate quoted tok
      (b +:+ String squote rest)
    = read_tokens Word escapedstate true (tok +:+ b) rest.
Proof.
  induction b as [|c b IH]; intros Hb esc q tok rest.
  - rewrite str_app_nil_r, str_app_nil_l. cbn [read_tokens].
    by rewrite bool_decide_eq_true_2.
  - simpl in Hb. destruct (decide (squote = c)) as [|Hne]; [done|].
    rewrite str_app_cons. cbn [read_tokens].
    rewrite bool_decide_eq_false_2 by done.
    replace (escape c && escapedquotes squote) with false
      by (by rewrite andb_false_r).
    rewrite (IH Hb). by rewrite str_app_assoc.
Qed.

(** One rendered build argument is read as one word. *)
Lemma read_arg (e : string * string) :
  plain_str e.1 = true → mem squote e.2 = false →
  ∀ escapedstate rest,
    read_tokens Space escapedstate false "" (arg_token e +:+ rest)
    = read_tokens Word escapedstate true (shell_word e) rest.
Proof.
  intros Hk Hv esc rest. unfold arg_token, shell_word.
  rewrite (repr_no_squote _ Hv).
  set (body := repr_body squote e.2).
  assert (Hbody : mem squote body = false) by by apply repr_body_no_squote.
  set (p := "D" +:+ upper e.1 +:+ "=").
  assert (Hp : plain_str p = true).
  { unfold p, plain_str. rewrite !all_chars_app.
    fold (plain_str (upper e.1)). by rewrite upper_plain. }
  replace (("-D" +:+ upper e.1 +:+ "=" +:+ String squote (body +:+ chr squote))
           +:+ rest)
    with (String "-" (p +:+ String squote (body +:+ String squote rest))).
  2:{ unfold p, chr. by str_norm. }
  cbn [read_tokens].
  replace (whitespace "-") with false by done.
  replace (escape "-") with false by done.
  replace (quotes "-") with false by done.
  rewrite (read_word_plain p Hp). cbn [read_tokens].
  replace (whitespace squote) with false by done.
  replace (quotes squote) with true by done.
  rewrite (read_quoted body Hbody). f_equal.
  unfold p, chr. by str_norm.
Qed.

(** The rendered build arguments of entries with plain keys and values
    free of single quotes split into one word per entry, in order. *)
Lemma split_args (es : list (string * string)) :
  Forall (λ e, plain_str e.1 = true ∧ mem squote e.2 = false) es →
  ∀ escapedstate,
    read_tokens Space escapedstate false "" (join " " (arg_token <$> es))
    = Ok (shell_word <$> es).
Proof.
  induction es as [|e es IH]; intros Hes esc; [done|].
  apply Forall_cons in Hes as [[Hk Hv] Hes].
  destruct es as [|e' es].
  - change (join " " (arg_token <$> [e])) with (arg_token e).
    rewrite <- (str_app_nil_r (arg_token e)).
    rewrite (read_arg e Hk Hv). cbn [read_tokens].
    by rewrite orb_true_r.
  - change (join " " (arg_token <$> e :: e' :: es))
      with (arg_token e +:+ String " " (join " " (arg_token <$> e' :: es))).
    rewrite (read_arg e Hk Hv). cbn [read_tokens].
    replace (whitespace " ") with true by done.
    rewrite orb_true_r, (IH Hes Space). done.
Qed.

(** *** Names that are one shell word *)










(** *** Names without whitespace and quotes *)









End Lexer.

(* ===================================================================== *)
(** ** Hash partitions *)
(* ===================================================================== *)

Section Partitions.

Implicit Types (h : heap) (d : dict) (s : string).

Lemma dict_get_elem d k v : NoDup d.*1 → (k, v) ∈ d → dict_get k d = Some v.
Proof.
  induction d as [|[k' v'] d IH]; csimpl; intros Hnd Hin.
  - by apply elem_of_nil in Hin.
  - apply NoDup_cons in Hnd as [Hk' Hnd].
    apply elem_of_cons in Hin as [[= -> ->]|Hin].
    + by destruct (decide (k' = k')).
    + destruct (decide (k = k')) as [->|]; [|by apply IH].
      destruct Hk'. by apply (list_elem_of_fmap_2 fst _ (k', v)).
Qed.

Lemma hash_entries_keys s : NoDup (hash_entries s).*1.
Proof.
  unfold hash_entries. rewrite <- list_fmap_compose.
  apply (NoDup_fmap_2 (λ n, VStr (hash_key n))), NoDup_seq.
Qed.

Lemma hash_entries_elem s k v :
  (k, v) ∈ hash_entries s ↔
  ∃ L, 8 ≤ L ≤ len s ∧ k = VStr (hash_key L) ∧ v = VStr (take L s).
Proof.
  unfold hash_entries. rewrite list_elem_of_fmap. split.
  - intros (L & [= -> ->] & HL). apply elem_of_seq in HL.
    exists L. split; [lia|done].
  - intros (L & HL & -> & ->). exists L. split; [done|].
    apply elem_of_seq. lia.
Qed.

Lemma get_hash_arg_pairs_short s h :
  len s < 8 →
  get_hash_arg_pairs (Atom (VStr s)) h
  = (Raise (ValueError "string not long enought"), h).
Proof.
  intros Hlen. unfold get_hash_arg_pairs, string_to_part_list.
  destruct (Nat.ltb_spec (len s) 8) as [_|?]; [|lia]. done.
Qed.

Lemma get_hash_arg_pairs_not_str (o : pyobj) h :
  isinstance_str o = false →
  get_hash_arg_pairs o h = (Raise (TypeError "no str given"), h).
Proof. by destruct o as [[]|]. Qed.

End Partitions.

(* ===================================================================== *)
(** ** The properties of the specification *)
(* ===================================================================== *)

(** C1. For a string [s] of at least 8 characters [get_hash_arg_pairs]
    returns a new dict with exactly [len s - 7] entries: for every length
    [L] from 8 up to [len s] the key [GIT_COMMIT_HASH_<L>_DIGITS], with [L]
    in decimal, holds the first [L] characters of [s], and there is no
    other entry. So the length a key names is the length of its value, and
    the first, shortest partition has exactly 8 characters. *)
Theorem get_hash_arg_pairs_partitions (s : string) (h : heap) :
  8 ≤ len s →
  get_hash_arg_pairs (Atom (VStr s)) h
    = (Ok (Ref (length h)), h ++ [hash_entries s])
  ∧ length (hash_entries s) = len s - 7
  ∧ (∀ L, 8 ≤ L ≤ len s →
       dict_get (VStr ("GIT_COMMIT_HASH_" +:+ of_nat L +:+ "_DIGITS"))
         (hash_entries s) = Some (VStr (take L s))
       ∧ len (take L s) = L)
  ∧ (∀ k v, (k, v) ∈ hash_entries s →
       ∃ L, 8 ≤ L ≤ len s
            ∧ k = VStr ("GIT_COMMIT_HASH_" +:+ of_nat L +:+ "_DIGITS")
            ∧ v = VStr (take L s) ∧ len (take L s) = L)
  ∧ (∃ rest, hash_entries s
             = (VStr "GIT_COMMIT_HASH_8_DIGITS", VStr (take 8 s)) :: rest
             ∧ len (take 8 s) = 8).
Proof.
  intros Hlen. split; [by apply get_hash_arg_pairs_ok|].
  split; [unfold hash_entries; by rewrite length_fmap, length_seq|].
  split; [|split].
  - intros L HL. split; [|apply len_take; lia].
    apply dict_get_elem; [apply hash_entries_keys|].
    apply hash_entries_elem. by exists L.
  - intros k v (L & HL & -> & ->)%hash_entries_elem.
    exists L. repeat split; try done; try lia. apply len_take. lia.
  - unfold hash_entries.
    destruct (len s - 7) as [|n] eqn:Hn; [lia|].
    eexists. split; [done|]. apply len_take. lia.
Qed.

Lemma get_hash_arg_pairs_partitions_witness :
  get_hash_arg_pairs (Atom (VStr "abcdefghij")) []
  = (Ok (Ref 0),
     [[(VStr "GIT_COMMIT_HASH_8_DIGITS", VStr "abcdefgh");
       (VStr "GIT_COMMIT_HASH_9_DIGITS", VStr "abcdefghi");
       (VStr "GIT_COMMIT_HASH_10_DIGITS", VStr "abcdefghij")]]).
Proof.
  exact (proj1 (get_hash_arg_pairs_partitions "abcdefghij" []
                  ltac:(vm_compute; lia))).
Defined.

(** C6. [get_hash_arg_pairs] raises a [ValueError] on a string of fewer
    than 8 characters and a [TypeError] on anything that is not a string;
    whenever it returns, every partition it made has at least 8
    characters. *)
Theorem get_hash_arg_pairs_errors :
  (∀ s h, len s < 8 →
     get_hash_arg_pairs (Atom (VStr s)) h
     = (Raise (ValueError "string not long enought"), h))
  ∧ (∀ o h, isinstance_str o = false →
       get_hash_arg_pairs o h = (Raise (TypeError "no str given"), h))
  ∧ (∀ o h r h' l d k v,
       get_hash_arg_pairs o h = (Ok r, h') →
       r = Ref l → h' !! l = Some d → (k, v) ∈ d →
       ∃ p, v = VStr p ∧ 8 ≤ len p).
Proof.
  split; [exact get_hash_arg_pairs_short|].
  split; [exact get_hash_arg_pairs_not_str|].
  intros o h r h' l d k v Hrun -> Hl Hin.
  destruct (isinstance_str o) eqn:Ho.
  2:{ by rewrite get_hash_arg_pairs_not_str in Hrun. }
  destruct o as [[s| |]|]; try done.
  destruct (Nat.lt_ge_cases (len s) 8) as [Hs|Hs].
  { by rewrite get_hash_arg_pairs_short in Hrun. }
  rewrite (get_hash_arg_pairs_ok s h Hs) in Hrun.
  injection Hrun as <- <-. rewrite lookup_new in Hl. injection Hl as <-.
  apply hash_entries_elem in Hin as (L & HL & -> & ->).
  eexists. split; [done|]. rewrite len_take; lia.
Qed.

Lemma get_hash_arg_pairs_errors_witness :
  get_hash_arg_pairs (Atom (VStr "2short")) []
    = (Raise (ValueError "string not long enought"), [])
  ∧ get_hash_arg_pairs (Atom (VInt 123)) []
    = (Raise (TypeError "no str given"), []).
Proof.
  split.
  - apply (proj1 get_hash_arg_pairs_errors). vm_compute. lia.
  - apply (proj1 (proj2 get_hash_arg_pairs_errors)). reflexivity.
Defined.

(** C4. For a dict whose keys and values are all text
    [gen_version_file_lines] returns one line per entry, in iteration
    order, made of [#define], the key as it stands and the value between
    double quotes; the store is left as it was. The dict with [a] and [b]
    gives the two lines of the docstring and the empty dict gives no
    line. *)
Theorem gen_version_file_lines_spec :
  (∀ (h : heap) l sd,
     h !! l = Some (textual sd) →
     gen_version_file_lines (Ref l) h
       = (Ok ((λ e, "#define " +:+ e.1 +:+ " " +:+ chr dquote +:+ e.2
                     +:+ chr dquote) <$> sd), h)
     ∧ length (header_line <$> sd) = length sd)
  ∧ gen_version_file_lines (Ref 0) [textual [("a", "abc"); ("b", "def")]]
    = (Ok ["#define a " +:+ chr dquote +:+ "abc" +:+ chr dquote;
           "#define b " +:+ chr dquote +:+ "def" +:+ chr dquote],
       [textual [("a", "abc"); ("b", "def")]])
  ∧ gen_version_file_lines (Ref 0) [textual []] = (Ok [], [textual []]).
Proof.
  split; [|split].
  - intros h l sd Hl. split; [|by rewrite length_fmap].
    by apply gen_version_file_lines_textual.
  - by rewrite (gen_version_file_lines_textual _ 0 [("a", "abc"); ("b", "def")]).
  - by rewrite (gen_version_file_lines_textual _ 0 []).
Qed.

Lemma gen_version_file_lines_spec_witness :
  gen_version_file_lines (Ref 1) [[]; textual [("GIT_BRANCH", "main")]]
  = (Ok ["#define GIT_BRANCH " +:+ chr dquote +:+ "main" +:+ chr dquote],
     [[]; textual [("GIT_BRANCH", "main")]]).
Proof.
  exact (proj1 (proj1 gen_version_file_lines_spec
                  [[]; textual [("GIT_BRANCH", "main")]] 1
                  [("GIT_BRANCH", "main")] eq_refl)).
Defined.

(** C5. For a dict whose keys and values are all text
    [gen_build_args_from_dict] joins with single spaces, in iteration
    order, one token per entry: [-D], the upper-cased key, [=] and the
    [repr] of the value. The dict of the docstring gives
    [-DABC='def' -DGHI='jkl']. A dict with a key or a value that is not
    text makes it raise a [TypeError]. *)
Theorem gen_build_args_from_dict_spec :
  (∀ (h : heap) l sd,
     h !! l = Some (textual sd) →
     gen_build_args_from_dict (Ref l) h
     = (Ok (join " " ((λ e, "-D" +:+ upper e.1 +:+ "=" +:+ repr e.2)
                        <$> sd)), h))
  ∧ gen_build_args_from_dict (Ref 0)
      [textual [("abc", "def"); ("ghi", "jkl")]]
    = (Ok "-DABC='def' -DGHI='jkl'",
       [textual [("abc", "def"); ("ghi", "jkl")]])
  ∧ (∀ (h : heap) l d k v,
       h !! l = Some d → (k, v) ∈ d →
       is_str k = false ∨ is_str v = false →
       ∃ msg, gen_build_args_from_dict (Ref l) h = (Raise (TypeError msg), h)).
Proof.
  split; [|split].
  - intros h l sd Hl. by apply gen_build_args_from_dict_textual.
  - by rewrite (gen_build_args_from_dict_textual _ 0
                  [("abc", "def"); ("ghi", "jkl")]).
  - intros h l d k v Hl Hin Hbad.
    destruct (forallb is_str d.*1) eqn:Hk.
    + destruct Hbad as [Hbad|Hbad].
      * pose proof (list_elem_of_fmap_2 fst _ _ Hin) as Hin1.
        destruct (forallb_is_str_elem _ _ Hk Hin1) as [s Hs].
        simpl in Hs. by subst.
      * eexists. apply (gen_build_args_from_dict_bad_value _ _ _ Hl Hk).
        apply (forallb_is_str_false _ v); [|done].
        by apply (list_elem_of_fmap_2 snd _ (k, v)).
    + eexists. by apply (gen_build_args_from_dict_bad_key _ _ _ Hl).
Qed.

Lemma gen_build_args_from_dict_spec_witness :
  gen_build_args_from_dict (Ref 0) [textual [("git_branch", "main")]]
    = (Ok "-DGIT_BRANCH='main'", [textual [("git_branch", "main")]])
  ∧ ∃ msg,
      gen_build_args_from_dict (Ref 0) [[(VStr "anotherstr", VInt 123)]]
      = (Raise (TypeError msg), [[(VStr "anotherstr", VInt 123)]]).
Proof.
  split.
  - exact (proj1 gen_build_args_from_dict_spec
             [textual [("git_branch", "main")]] 0
             [("git_branch", "main")] eq_refl).
  - apply (proj2 (proj2 gen_build_args_from_dict_spec)
             [[(VStr "anotherstr", VInt 123)]] 0
             [(VStr "anotherstr", VInt 123)]
             (VStr "anotherstr") (VInt 123) eq_refl).
    + apply list_elem_of_here.
    + right. reflexivity.
Defined.

(** C9. [prefix_dict_keys] returns a new dict in which every key [k] of
    the argument has become [pfx + k], each with the value it had, of
    whatever type; the argument stays as it was. It raises a [TypeError]
    when the prefix is not text, when the argument is not a dict and when
    a key is not text. With [ABC_] the dict with [a] and [b] gives the one
    with [ABC_a] and [ABC_b]. *)
Theorem prefix_dict_keys_spec :
  (∀ pfx (h : heap) l kd,
     h !! l = Some (str_keyed kd) → NoDup kd.*1 →
     prefix_dict_keys (Atom (VStr pfx)) (Ref l) h
     = (Ok (Ref (length h)),
        h ++ [str_keyed ((λ e, (pfx +:+ e.1, e.2)) <$> kd)]))
  ∧ (∀ pfx dct (h : heap),
       isinstance_str pfx = false →
       prefix_dict_keys pfx dct h
       = (Raise (TypeError "prefix is not of type str"), h))
  ∧ (∀ pfx v (h : heap),
       prefix_dict_keys (Atom (VStr pfx)) (Atom v) h
       = (Raise (TypeError "dct is not of type dict"), h))
  ∧ (∀ pfx (h : heap) l d k,
       h !! l = Some d → k ∈ d.*1 → is_str k = false →
       prefix_dict_keys (Atom (VStr pfx)) (Ref l) h
       = (Raise (TypeError "not all keys of the dict are of type str"), h))
  ∧ prefix_dict_keys (Atom (VStr "ABC_")) (Ref 0)
      [[(VStr "a", VInt 1); (VStr "b", VInt 2)]]
    = (Ok (Ref 1),
       [[(VStr "a", VInt 1); (VStr "b", VInt 2)];
        [(VStr "ABC_a", VInt 1); (VStr "ABC_b", VInt 2)]]).
Proof.
  split; [|split; [|split; [|split]]].
  - intros pfx h l kd Hl Hnd.
    by rewrite (prefix_dict_keys_ok _ _ _ _ Hl Hnd).
  - intros [[]|] dct h Hpfx; done.
  - done.
  - intros pfx h l d k Hl Hin Hk. unfold prefix_dict_keys.
    simpl isinstance_dict. run_with (require_true not_a_dict h).
    run_with (keys_ok _ _ _ Hl).
    rewrite (forallb_is_str_false _ _ Hin Hk).
    by run_with (require_false not_all_keys h).
  - reflexivity.
Qed.

Lemma prefix_dict_keys_spec_witness :
  prefix_dict_keys (Atom (VStr "git_")) (Ref 0)
    [str_keyed [("branch", VStr "main"); ("count", VInt 7)]]
  = (Ok (Ref 1),
     [str_keyed [("branch", VStr "main"); ("count", VInt 7)];
      str_keyed [("git_branch", VStr "main"); ("git_count", VInt 7)]]).
Proof.
  apply (proj1 prefix_dict_keys_spec "git_"
           [str_keyed [("branch", VStr "main"); ("count", VInt 7)]] 0
           [("branch", VStr "main"); ("count", VInt 7)] eq_refl).
  decide_by_compute.
Defined.

Section Collisions.

Lemma split_two {A} (xs : list A) i j x y :
  i < j → xs !! i = Some x → xs !! j = Some y →
  ∃ pre mid post, xs = pre ++ x :: mid ++ y :: post.
Proof.
  intros Hij Hi Hj.
  apply list_elem_of_split_length in Hi as (pre & rest & -> & ->).
  rewrite lookup_app_r in Hj by lia.
  destruct (j - length pre) as [|n] eqn:Hn; [lia|]. simpl in Hj.
  apply list_elem_of_split_length in Hj as (mid & post & -> & _).
  by exists pre, mid, post.
Qed.

Lemma assign_all_collision_lookup {A} (gk gv : A → pyval) (xs : list A)
    i j x y :
  i ≠ j → xs !! i = Some x → xs !! j = Some y → gk x = gk y →
  length (assign_all gk gv [] xs) < length xs.
Proof.
  intros Hij Hi Hj Heq.
  destruct (Nat.lt_total i j) as [Hlt|[?|Hlt]]; [|done|].
  - destruct (split_two xs i j x y Hlt Hi Hj) as (pre & mid & post & ->).
    apply (assign_all_collision gk gv pre post x y mid [] Heq).
  - destruct (split_two xs j i y x Hlt Hj Hi) as (pre & mid & post & ->).
    apply (assign_all_collision gk gv pre post y x mid [] (eq_sym Heq)).
Qed.

End Collisions.

(** C10. When two different keys of the argument have the same upper-case
    form, [upper_dict_keys] returns a dict with fewer entries than the
    argument: they end up under one key, and that key holds the value of
    the last entry, in iteration order, whose key has this upper-case
    form. *)
Theorem upper_dict_keys_collision (h : heap) l (kd : list (string * pyval))
    i j k1 v1 k2 v2 :
  h !! l = Some (str_keyed kd) →
  kd !! i = Some (k1, v1) → kd !! j = Some (k2, v2) →
  k1 ≠ k2 → upper k1 = upper k2 →
  ∃ d' : dict,
    upper_dict_keys (Ref l) h = (Ok (Ref (length h)), h ++ [d'])
    ∧ length d' < length kd
    ∧ ∀ pre k v post,
        kd = pre ++ (k, v) :: post → upper k = upper k1 →
        (∀ e, e ∈ post → upper e.1 ≠ upper k1) →
        dict_get (VStr (upper k1)) d' = Some v.
Proof.
  intros Hl Hi Hj Hne Hup.
  exists (assign_all (λ e, upper_key e.1) snd [] (str_keyed kd)).
  split; [|split].
  - apply (upper_dict_keys_ok _ _ _ Hl), str_keyed_keys.
  - rewrite <- (length_fmap (prod_map VStr id) kd).
    apply (assign_all_collision_lookup _ _ _ i j (VStr k1, v1) (VStr k2, v2)).
    + intros ->. rewrite Hi in Hj. by injection Hj as -> _.
    + unfold str_keyed. by rewrite list_lookup_fmap, Hi.
    + unfold str_keyed. by rewrite list_lookup_fmap, Hj.
    + simpl. by rewrite Hup.
  - intros pre k v post -> Hk Hpost. unfold str_keyed.
    rewrite fmap_app, fmap_cons. rewrite <- Hk.
    apply (assign_all_last (λ e, upper_key e.1) snd
             (prod_map VStr id <$> pre) (prod_map VStr id <$> post)
             (VStr k, v) []).
    intros y (e & -> & He)%list_elem_of_fmap. simpl.
    intros [= Hy]. apply (Hpost e He). by rewrite Hy.
Qed.

Lemma upper_dict_keys_collision_witness :
  ∃ d' : dict,
    upper_dict_keys (Ref 0) [str_keyed [("a", VInt 1); ("A", VInt 2)]]
    = (Ok (Ref 1), [str_keyed [("a", VInt 1); ("A", VInt 2)]] ++ [d'])
    ∧ length d' < 2
    ∧ ∀ pre k v post,
        [("a", VInt 1); ("A", VInt 2)] = pre ++ (k, v) :: post →
        upper k = upper "a" →
        (∀ e, e ∈ post → upper e.1 ≠ upper "a") →
        dict_get (VStr (upper "a")) d' = Some v.
Proof.
  apply (upper_dict_keys_collision
           [str_keyed [("a", VInt 1); ("A", VInt 2)]] 0
           [("a", VInt 1); ("A", VInt 2)] 0 1 "a" (VInt 1) "A" (VInt 2));
    [reflexivity | reflexivity | reflexivity | discriminate | reflexivity].
Defined.

Section Escaping.

Implicit Types (h : heap) (kd : list (string * pyval)).

Lemma str_keyed_keys_eq kd : (str_keyed kd).*1 = VStr <$> kd.*1.
Proof.
  unfold str_keyed. rewrite <- !list_fmap_compose.
  apply list_fmap_ext. by intros i [k v] _.
Qed.

Lemma str_keyed_NoDup kd : NoDup kd.*1 → NoDup (str_keyed kd).*1.
Proof. intros Hnd. rewrite str_keyed_keys_eq. by apply NoDup_fmap_2; [apply _|]. Qed.

Lemma escape_str_keyed kd :
  prod_map id escape_val <$> str_keyed kd = textual (escaped kd).
Proof.
  unfold str_keyed, textual, escaped. rewrite <- !list_fmap_compose.
  apply list_fmap_ext. by intros i [k v] _.
Qed.



Lemma str_keyed_decodable kd :
  Forall (λ e, decodable e.2 = true) kd →
  Forall (λ e, decodable e.2 = true) (str_keyed kd).
Proof.
  intros Hkd. unfold str_keyed. apply Forall_fmap.
  eapply Forall_impl; [exact Hkd|]. by intros [k v].
Qed.

Lemma repr_dict_values_str_keyed h l kd :
  h !! l = Some (str_keyed kd) → NoDup kd.*1 →
  Forall (λ e, decodable e.2 = true) kd →
  repr_dict_values (Ref l) h
  = (Ok (Ref l), <[l := textual (escaped kd)]> (h ++ [[]])).
Proof.
  intros Hl Hnd Hdec.
  rewrite (repr_dict_values_ok _ _ _ Hl (str_keyed_keys kd)
             (str_keyed_NoDup kd Hnd) (str_keyed_decodable kd Hdec)).
  by rewrite escape_str_keyed.
Qed.


End Escaping.


(** A byte string that is not well-formed UTF-8 cannot be escaped at
    all: the call raises before anything is rendered. *)
Example escape_render_split_undecodable :
  escape_render_split (Ref 0) [str_keyed [("k", VBytes (String "255" ""))]]
  = (Raise (UnicodeDecodeError (String "255" "")),
     [str_keyed [("k", VBytes (String "255" ""))]; []]).
Proof. reflexivity. Qed.



(** C7. [str_dict_values] and [repr_dict_values] write the new values
    into the dict they are given and return that same dict: after the
    call the argument holds the text ['123'] where it held the number
    [123], and the dict made for [new_dict] stays empty. In a run of
    [main] the record collected at the start is therefore overwritten by
    the escaping step: a message [it's] is found as [its] between double
    quotes in the record afterwards. *)
Theorem normalizers_overwrite_argument :
  str_dict_values (Ref 0) [[(VStr "a", VInt 123)]]
    = (Ok (Ref 0), [[(VStr "a", VStr "123")]; []])
  ∧ repr_dict_values (Ref 0) [[(VStr "a", VInt 123)]]
    = (Ok (Ref 0), [[(VStr "a", VStr "123")]; []])
  ∧ [[(VStr "a", VStr "123")]; []] !! 0 ≠ Some [(VStr "a", VInt 123)]
  ∧ (let repo := test_repo "main" "A. Uthor" "1" "2" "it's" in
     let h' := (main {| opt_json := None; opt_header := None |} repo []).2 in
     dict_get (VStr "commit_msg") <$> h' !! 0
       = Some (Some (VStr (chr dquote +:+ "its" +:+ chr dquote)))
     ∧ h' !! 0 ≠ Some (str_keyed (collected repo))).
Proof.
  split; [done|]. split; [done|]. split; [done|].
  cbv zeta. split; [by vm_compute|].
  vm_compute. intros [= ?].
Qed.

(** C8. Given something that is not a dict, the two renderers do not
    raise a [TypeError]: the first thing they do is ask for its keys, and
    a number or a string has none, which is an [AttributeError]. The
    functions next to them check the type first and raise a
    [TypeError]. *)
Theorem renderers_on_non_mapping :
  gen_version_file_lines (Atom (VInt 123)) []
    = (Raise (AttributeError "'int' object has no attribute 'keys'"), [])
  ∧ gen_build_args_from_dict (Atom (VStr "no dict")) []
    = (Raise (AttributeError "'str' object has no attribute 'keys'"), [])
  ∧ upper_dict_keys (Atom (VStr "no dict")) []
    = (Raise (TypeError "dct is not of type dict"), []).
Proof. repeat split. Qed.

Section Lines.

Implicit Types (s : string) (c : ascii).

Lemma mem_replace_other c c' s :
  c ≠ c' → mem c (replace c' "" s) = mem c s.
Proof.
  intros Hne. induction s as [|a s IH]; [done|]. simpl.
  destruct (decide (a = c')) as [->|Ha]; simpl.
  - rewrite str_app_nil_l. by destruct (decide (c = c')).
  - by rewrite IH.
Qed.

Lemma repr_char_no_newline q c :
  q = squote ∨ q = dquote → mem newline (repr_char q c) = false.
Proof.
  intros [->| ->]; by destruct c as [[] [] [] [] [] [] [] []].
Qed.

Lemma repr_body_no_newline q s :
  q = squote ∨ q = dquote → mem newline (repr_body q s) = false.
Proof.
  intros Hq. induction s as [|c s IH]; [done|]. simpl.
  by rewrite mem_app, repr_char_no_newline, IH.
Qed.

Lemma repr_quote_cases s : repr_quote s = squote ∨ repr_quote s = dquote.
Proof. unfold repr_quote. destruct (_ && _); auto. Qed.

Lemma strip_repr_no_newline s : mem newline (strip_repr s) = false.
Proof.
  unfold strip_repr. rewrite mem_replace_other by done.
  unfold repr. destruct (repr_quote_cases s) as [-> | ->]; simpl;
    by rewrite mem_app, repr_body_no_newline by auto.
Qed.

Lemma header_line_no_newline (e : string * string) :
  mem newline e.1 = false → mem newline e.2 = false →
  mem newline (header_line e) = false.
Proof.
  intros H1 H2. unfold header_line. by rewrite !mem_app, H1, H2.
Qed.

End Lines.

Section Driver.

Lemma join_app sep (xs ys : list string) :
  xs ≠ [] → ys ≠ [] →
  join sep (xs ++ ys) = join sep xs +:+ sep +:+ join sep ys.
Proof.
  intros Hxs Hys. induction xs as [|x xs IH]; [done|].
  destruct xs as [|x' xs].
  - destruct ys as [|y ys]; [done|]. done.
  - change (join sep ((x :: x' :: xs) ++ ys))
      with (x +:+ sep +:+ join sep ((x' :: xs) ++ ys)).
    change (join sep (x :: x' :: xs))
      with (x +:+ sep +:+ join sep (x' :: xs)).
    rewrite IH by done. by rewrite !str_app_assoc.
Qed.

Lemma dict_of_fresh (es : dict) (h : heap) :
  NoDup es.*1 → dict_of es h = (Ok (Ref (length h)), h ++ [es]).
Proof.
  intros Hnd. unfold dict_of. run_with (new_dict_ok h).
  erewrite bind_ok.
  2:{ apply (for_each_setitem es _ fst snd (length h)).
      - by intros [k v] h' _.
      - apply lookup_new. }
  unfold ret. rewrite insert_new. do 3 f_equal.
  change (assign_all fst snd [] es = es).
  rewrite assign_all_fresh; [|done|intros x _; apply not_elem_of_nil].
  rewrite app_nil_l. etransitivity; [|apply (list_fmap_id es)].
  apply list_fmap_ext. by intros i [k v] _.
Qed.

End Driver.

Section EndToEnd.

(** Locations are written as numbers before a step is taken. *)
Ltac norm_locs :=
  repeat match goal with
         | |- context [Ref (length ?h)] =>
             let n := eval lazy in (length h) in
             change (length h) with n
         end.

(** One statement of [main]: the call is replaced by its result. *)
Ltac step tac := cbv beta zeta; norm_locs; erewrite bind_ok; [|tac].

Lemma test_repo_args_joined b a ad bd msg :
  let repo := test_repo b a ad bd msg in
  (join " " (arg_token <$> git_entries repo) +:+ " ")
    +:+ join " " (arg_token <$> hash_defines repo)
  = join " " (arg_token <$> git_entries repo ++ hash_defines repo).
Proof. intros repo. by rewrite fmap_app, join_app, str_app_assoc. Qed.

Lemma test_repo_args_split b a ad bd msg :
  let repo := test_repo b a ad bd msg in
  Shlex.split (join " " (arg_token <$> git_entries repo ++ hash_defines repo))
  = Ok (shell_word <$> git_entries repo ++ hash_defines repo).
Proof.
  intros repo. apply split_args, Forall_app. split.
  - repeat (apply Forall_cons; split;
              [split; [reflexivity|apply mem_strip_repr]|]).
    apply Forall_nil_2.
  - decide_by_compute.
Qed.

(** What [main] writes for the record of the end-to-end test. *)
Lemma main_run (args : options) b a ad bd msg :
  let repo := test_repo b a ad bd msg in
  ∃ h',
    main args repo []
    = (Ok {| json_file :=
               (λ p, (p, str_keyed (collected repo))) <$> opt_json args;
             header_file :=
               (λ p, (p, header_text repo)) <$> opt_header args;
             stdout :=
               join " " (arg_token <$> git_entries repo ++ hash_defines repo);
             stderr :=
               shell_word <$> git_entries repo ++ hash_defines repo |},
       h').
Proof.
  intros repo. destruct args as [[jp|] hp].
  all: eexists; unfold main; cbn [opt_json opt_header].
  all: step ltac:(apply (dict_of_fresh (str_keyed (collected repo)) []);
                  decide_by_compute).
  1: step ltac:(
       step ltac:(apply (str_dict_values_ok _ _ (str_keyed (collected repo)));
                  [reflexivity|reflexivity|decide_by_compute
                  |decide_by_compute]);
       step ltac:(reflexivity); reflexivity).
  2: step ltac:(reflexivity).
  all: step ltac:(apply (repr_dict_values_str_keyed _ _ (collected repo));
                  [reflexivity|decide_by_compute|decide_by_compute]).
  all: step ltac:(apply (prefix_dict_keys_ok "git_" _ _
                           (prod_map id VStr <$> escaped (collected repo)));
                  [reflexivity|decide_by_compute]).
  all: step ltac:(reflexivity).
  all: step ltac:(apply (get_hash_arg_pairs_ok "1234567890abcdef");
                  vm_compute; lia).
  all: step ltac:(apply (repr_dict_values_str_keyed _ _
                           (hash_parts "1234567890abcdef"));
                  [reflexivity|decide_by_compute|decide_by_compute]).
  all: step ltac:(apply (upper_dict_keys_ok _ _ (textual (git_entries repo)));
                  reflexivity).
  all: step ltac:(apply (gen_version_file_lines_textual _ _
                           (prod_map upper id <$> git_entries repo));
                  reflexivity).
  all: step ltac:(apply (gen_version_file_lines_textual _ _
                           (hash_defines repo)); reflexivity).
  all: step ltac:(apply (gen_build_args_from_dict_textual _ _
                           (git_entries repo)); reflexivity).
  all: step ltac:(apply (gen_build_args_from_dict_textual _ _
                           (hash_defines repo)); reflexivity).
  all: subst repo; rewrite !(test_repo_args_joined b a ad bd msg).
  all: rewrite (test_repo_args_split b a ad bd msg).
  all: by destruct hp.
Qed.

End EndToEnd.

(** C3. For a record whose commit identifier is [1234567890abcdef] and
    whose branch, author, dates and message are any text, [main] runs to
    the end, with or without a JSON path. The header text it writes to the
    header path is a list of lines, none with a line break inside, joined
    by line breaks: first [#pragma once], then the define of
    [GIT_COMMIT_HASH] with the identifier between double quotes, then the
    other defines of the record, then one define
    [GIT_COMMIT_HASH_<L>_DIGITS] for each length [L] from 8 to 16, holding
    the first [L] characters of the identifier. The build-argument string
    is a list of tokens joined by spaces whose first token is
    [-DGIT_COMMIT_HASH='1234567890abcdef']. *)
Theorem main_end_to_end (branch author authored build msg : string)
    (json : option string) (path : string) :
  ∃ out h' git_lines args,
    let lines :=
      "#pragma once"
      :: ("#define GIT_COMMIT_HASH " +:+ chr dquote +:+ "1234567890abcdef"
          +:+ chr dquote)
      :: git_lines
      ++ ((λ L, "#define GIT_COMMIT_HASH_" +:+ of_nat L +:+ "_DIGITS "
                +:+ chr dquote +:+ take L "1234567890abcdef" +:+ chr dquote)
          <$> seq 8 9) in
    main {| opt_json := json; opt_header := Some path |}
      (test_repo branch author authored build msg) []
    = (Ok out, h')
    ∧ header_file out = Some (path, join (chr newline) lines)
    ∧ Forall (λ ln, mem newline ln = false) lines
    ∧ stdout out
      = join " " ("-DGIT_COMMIT_HASH='1234567890abcdef'" :: args).
Proof.
  set (repo := test_repo branch author authored build msg).
  destruct (main_run {| opt_json := json; opt_header := Some path |}
              branch author authored build msg) as [h' Hrun].
  fold repo in Hrun. eexists _, h',
    (header_line <$> tail (prod_map upper id <$> git_entries repo)),
    (arg_token <$> tail (git_entries repo ++ hash_defines repo)).
  cbv zeta. split; [exact Hrun|]. cbn [header_file stdout opt_header fmap option_fmap option_map].
  assert (Hhash :
    header_line <$> hash_defines repo
    = (λ L, "#define GIT_COMMIT_HASH_" +:+ of_nat L +:+ "_DIGITS "
            +:+ chr dquote +:+ take L "1234567890abcdef" +:+ chr dquote)
      <$> seq 8 9) by (vm_compute; reflexivity).
  rewrite <- Hhash. split; [reflexivity|]. split; [|reflexivity].
  apply Forall_cons. split; [reflexivity|].
  apply Forall_cons. split; [reflexivity|].
  apply Forall_app. split.
  - repeat (apply Forall_cons; split;
              [apply header_line_no_newline;
               [reflexivity|apply strip_repr_no_newline]|]).
    apply Forall_nil_2.
  - decide_by_compute.
Qed.

(* ===================================================================== *)
(** ** Further properties of the code *)
(* ===================================================================== *)

Section MoreSpecs.

Implicit Types (h : heap) (d : dict) (l : loc) (kd : list (string * pyval)).

Lemma upper_dict_keys_bad_key h l d :
  h !! l = Some d → forallb is_str d.*1 = false →
  upper_dict_keys (Ref l) h = (Raise not_all_keys, h).
Proof.
  intros Hl Hk. unfold upper_dict_keys. simpl isinstance_dict.
  run_with (require_true not_a_dict h). run_with (keys_ok _ _ _ Hl).
  rewrite Hk. by run_with (require_false not_all_keys h).
Qed.

Lemma str_dict_values_bad_key h l d :
  h !! l = Some d → forallb is_str d.*1 = false →
  str_dict_values (Ref l) h = (Raise not_all_keys, h).
Proof.
  intros Hl Hk. unfold str_dict_values. simpl isinstance_dict.
  run_with (require_true not_a_dict h). run_with (keys_ok _ _ _ Hl).
  rewrite Hk. by run_with (require_false not_all_keys h).
Qed.

Lemma repr_dict_values_bad_key h l d :
  h !! l = Some d → forallb is_str d.*1 = false →
  repr_dict_values (Ref l) h = (Raise not_all_keys, h).
Proof.
  intros Hl Hk. unfold repr_dict_values. simpl isinstance_dict.
  run_with (require_true not_a_dict h). run_with (keys_ok _ _ _ Hl).
  rewrite Hk. by run_with (require_false not_all_keys h).
Qed.

Lemma prefix_dict_keys_bad_key pfx h l d :
  h !! l = Some d → forallb is_str d.*1 = false →
  prefix_dict_keys (Atom (VStr pfx)) (Ref l) h = (Raise not_all_keys, h).
Proof.
  intros Hl Hk. unfold prefix_dict_keys. simpl isinstance_dict.
  run_with (require_true not_a_dict h). run_with (keys_ok _ _ _ Hl).
  rewrite Hk. by run_with (require_false not_all_keys h).
Qed.

Lemma gen_version_file_lines_bad_key_any h l d :
  h !! l = Some d → forallb is_str d.*1 = false →
  gen_version_file_lines (Ref l) h = (Raise not_all_keys, h).
Proof.
  intros Hl Hk. unfold gen_version_file_lines.
  run_with (keys_ok _ _ _ Hl). rewrite Hk.
  by run_with (require_false not_all_keys h).
Qed.

Lemma gen_version_file_lines_bad_value_any h l d :
  h !! l = Some d →
  forallb is_str d.*1 = true → forallb is_str d.*2 = false →
  gen_version_file_lines (Ref l) h = (Raise not_all_values, h).
Proof.
  intros Hl Hk Hv. unfold gen_version_file_lines.
  run_with (keys_ok _ _ _ Hl). rewrite Hk. run_with (require_true not_all_keys h).
  run_with (values_ok _ _ _ Hl). rewrite Hv.
  by run_with (require_false not_all_values h).
Qed.

Lemma upper_dict_keys_str_keyed h l kd :
  h !! l = Some (str_keyed kd) → NoDup (upper <$> kd.*1) →
  upper_dict_keys (Ref l) h
  = (Ok (Ref (length h)),
     h ++ [str_keyed ((λ e, (upper e.1, e.2)) <$> kd)]).
Proof.
  intros Hl Hnd.
  rewrite (upper_dict_keys_ok _ _ _ Hl (str_keyed_keys kd)).
  do 3 f_equal. rewrite assign_all_fresh.
  - rewrite app_nil_l. unfold str_keyed. rewrite <- !list_fmap_compose.
    apply list_fmap_ext. by intros i [k v] _.
  - unfold str_keyed. rewrite <- list_fmap_compose.
    replace ((λ e : pyval * pyval, upper_key e.1) ∘ prod_map VStr id <$> kd)
      with (VStr <$> (upper <$> kd.*1)).
    + by apply NoDup_fmap_2; [apply _|].
    + rewrite <- !list_fmap_compose. apply list_fmap_ext. by intros i [k v] _.
  - intros x _. apply not_elem_of_nil.
Qed.

End MoreSpecs.

(** X1. When the upper-case forms of the keys are pairwise different,
    [upper_dict_keys] returns a new dict with the same number of entries,
    in the same order, every key upper-cased and every value, of whatever
    type, the one it had: looking up the upper-cased key gives the value
    of the key. The argument is left as it was. *)
Theorem upper_dict_keys_distinct (h : heap) l (kd : list (string * pyval)) :
  h !! l = Some (str_keyed kd) → NoDup (upper <$> kd.*1) →
  ∃ d' : dict,
    upper_dict_keys (Ref l) h = (Ok (Ref (length h)), h ++ [d'])
    ∧ d' = str_keyed ((λ e, (upper e.1, e.2)) <$> kd)
    ∧ length d' = length kd
    ∧ (h ++ [d']) !! l = Some (str_keyed kd)
    ∧ ∀ k v, (k, v) ∈ kd → dict_get (VStr (upper k)) d' = Some v.
Proof.
  intros Hl Hnd. eexists. split; [by apply upper_dict_keys_str_keyed|].
  split; [done|]. split; [unfold str_keyed; by rewrite !length_fmap|].
  split; [by apply lookup_old|].
  intros k v Hin. apply dict_get_elem.
  - rewrite str_keyed_keys_eq. apply NoDup_fmap_2; [apply _|].
    replace (((λ e : string * pyval, (upper e.1, e.2)) <$> kd).*1)
      with (upper <$> kd.*1); [done|].
    rewrite <- !list_fmap_compose. apply list_fmap_ext. by intros i [] _.
  - unfold str_keyed. rewrite <- list_fmap_compose.
    apply list_elem_of_fmap. by exists (k, v).
Qed.

Lemma upper_dict_keys_distinct_witness :
  ∃ d' : dict,
    upper_dict_keys (Ref 0) [str_keyed [("a", VStr "abc"); ("b", VInt 2)]]
    = (Ok (Ref 1), [str_keyed [("a", VStr "abc"); ("b", VInt 2)]] ++ [d'])
    ∧ d' = str_keyed [("A", VStr "abc"); ("B", VInt 2)]
    ∧ length d' = 2
    ∧ ([str_keyed [("a", VStr "abc"); ("b", VInt 2)]] ++ [d']) !! 0
      = Some (str_keyed [("a", VStr "abc"); ("b", VInt 2)])
    ∧ ∀ k v, (k, v) ∈ [("a", VStr "abc"); ("b", VInt 2)] →
             dict_get (VStr (upper k)) d' = Some v.
Proof.
  apply (upper_dict_keys_distinct
           [str_keyed [("a", VStr "abc"); ("b", VInt 2)]] 0
           [("a", VStr "abc"); ("b", VInt 2)]).
  - reflexivity.
  - decide_by_compute.
Defined.

(** X2. [upper_dict_keys], [str_dict_values] and [repr_dict_values] check
    their argument before they do anything: given a value that is not a
    dict, or a dict with a key that is not text, each raises its
    [TypeError] and the store is as it was; no dict has been made and no
    value rewritten. *)
Theorem key_transforms_validate_first :
  (∀ v (h : heap),
     upper_dict_keys (Atom v) h
       = (Raise (TypeError "dct is not of type dict"), h)
     ∧ str_dict_values (Atom v) h
       = (Raise (TypeError "dct is not of type dict"), h)
     ∧ repr_dict_values (Atom v) h
       = (Raise (TypeError "dct is not of type dict"), h))
  ∧ (∀ (h : heap) l (d : dict) k,
       h !! l = Some d → k ∈ d.*1 → is_str k = false →
       upper_dict_keys (Ref l) h
         = (Raise (TypeError "not all keys of the dict are of type str"), h)
       ∧ str_dict_values (Ref l) h
         = (Raise (TypeError "not all keys of the dict are of type str"), h)
       ∧ repr_dict_values (Ref l) h
         = (Raise (TypeError "not all keys of the dict are of type str"), h)).
Proof.
  split; [done|]. intros h l d k Hl Hin Hk.
  pose proof (forallb_is_str_false _ _ Hin Hk) as Hall.
  split; [by apply (upper_dict_keys_bad_key _ _ _ Hl)|].
  split; [by apply (str_dict_values_bad_key _ _ _ Hl)|].
  by apply (repr_dict_values_bad_key _ _ _ Hl).
Qed.

Lemma key_transforms_validate_first_witness :
  upper_dict_keys (Ref 0) [[(VStr "abc", VStr "def"); (VInt 123, VStr "jkl")]]
    = (Raise (TypeError "not all keys of the dict are of type str"),
       [[(VStr "abc", VStr "def"); (VInt 123, VStr "jkl")]])
  ∧ str_dict_values (Ref 0)
      [[(VStr "abc", VStr "def"); (VInt 123, VStr "jkl")]]
    = (Raise (TypeError "not all keys of the dict are of type str"),
       [[(VStr "abc", VStr "def"); (VInt 123, VStr "jkl")]])
  ∧ repr_dict_values (Ref 0)
      [[(VStr "abc", VStr "def"); (VInt 123, VStr "jkl")]]
    = (Raise (TypeError "not all keys of the dict are of type str"),
       [[(VStr "abc", VStr "def"); (VInt 123, VStr "jkl")]]).
Proof.
  apply (proj2 key_transforms_validate_first
           [[(VStr "abc", VStr "def"); (VInt 123, VStr "jkl")]] 0
           [(VStr "abc", VStr "def"); (VInt 123, VStr "jkl")] (VInt 123)).
  - reflexivity.
  - decide_by_compute.
  - reflexivity.
Defined.

Section MoreText.

Implicit Types (s t : string) (c q : ascii).













Lemma quiet_no_squote s : quiet_str s = true → mem squote s = false.
Proof.
  unfold quiet_str. induction s as [|c s IH]; [done|].
  cbn [all_chars mem]. intros [Hc Hs]%andb_prop.
  destruct (decide (squote = c)) as [<-|]; [done|]. by apply IH.
Qed.

Lemma repr_char_quiet c : quiet c = true → repr_char squote c = chr c.
Proof. by destruct c as [[] [] [] [] [] [] [] []]. Qed.

Lemma repr_body_quiet s : quiet_str s = true → repr_body squote s = s.
Proof.
  unfold quiet_str. induction s as [|c s IH]; [done|].
  cbn [all_chars repr_body]. intros [Hc Hs]%andb_prop.
  by rewrite repr_char_quiet, IH.
Qed.

(** Escaping leaves quiet text as it is. *)
Lemma strip_repr_quiet s : quiet_str s = true → strip_repr s = s.
Proof.
  intros Hs. pose proof (quiet_no_squote s Hs) as Hq.
  unfold strip_repr. rewrite (repr_no_squote s Hq), (repr_body_quiet s Hs).
  cbn [replace]. destruct (decide (squote = squote)); [|done].
  rewrite str_app_nil_l.
  assert (Hsplit : ∀ t, mem squote t = false →
            replace squote "" (t +:+ chr squote) = t).
  { clear. induction t as [|c t IH]; intros Ht.
    - rewrite str_app_nil_l. cbn. by destruct (decide (squote = squote)).
    - cbn [mem] in Ht. destruct (decide (squote = c)); [done|].
      rewrite str_app_cons. cbn [replace].
      destruct (decide (c = squote)); [by subst|]. by rewrite IH. }
  by apply Hsplit.
Qed.

End MoreText.

Section MoreEscaping.

Implicit Types (h : heap) (l : loc) (kd : list (string * pyval)).



Lemma text_decodable {A} (f : A → string) (xs : list (string * A)) :
  Forall (λ e : string * pyval, decodable e.2 = true)
    (prod_map id (λ a, VStr (f a)) <$> xs).
Proof. apply Forall_fmap, Forall_forall. by intros [k a] _. Qed.

Lemma lookup_updated h l (d0 d : dict) :
  h !! l = Some d0 → (<[l := d]> (h ++ [[]])) !! l = Some d.
Proof.
  intros Hl. apply list_lookup_insert_eq. rewrite length_app.
  apply lookup_lt_Some in Hl. lia.
Qed.

Lemma textual_as_str_keyed sd :
  textual sd = str_keyed (prod_map id VStr <$> sd).
Proof.
  unfold textual, str_keyed. rewrite <- list_fmap_compose.
  apply list_fmap_ext. by intros i [k v] _.
Qed.

Lemma fst_prod_map_id {B C} (f : B → C) (sd : list (string * B)) :
  (prod_map id f <$> sd).*1 = sd.*1.
Proof.
  rewrite <- list_fmap_compose. apply list_fmap_ext. by intros i [k v] _.
Qed.

End MoreEscaping.









(** X7. Escaping changes nothing where there is nothing to escape: on a
    dict whose keys are text and whose values are printable ASCII text
    without single quote and without backslash (a commit hash, a date, a
    plain name), [repr_dict_values] leaves every entry as it was. *)
Theorem repr_dict_values_quiet (h : heap) l (sd : list (string * string)) :
  h !! l = Some (textual sd) → NoDup sd.*1 →
  Forall (λ e, quiet_str e.2 = true) sd →
  ∃ h' : heap,
    repr_dict_values (Ref l) h = (Ok (Ref l), h')
    ∧ h' !! l = Some (textual sd).
Proof.
  intros Hl Hnd Hq. rewrite textual_as_str_keyed in Hl.
  assert (Hnd' : NoDup (prod_map id VStr <$> sd).*1)
    by by rewrite fst_prod_map_id.
  eexists.
  split; [by apply repr_dict_values_str_keyed, (text_decodable id sd)|].
  rewrite (lookup_updated _ _ _ _ Hl). f_equal. unfold textual, escaped.
  rewrite <- !list_fmap_compose. apply Forall_fmap_ext_1.
  eapply Forall_impl; [exact Hq|]. intros [k v] Hv. simpl in *.
  by rewrite strip_repr_quiet.
Qed.

Lemma repr_dict_values_quiet_witness :
  ∃ h' : heap,
    repr_dict_values (Ref 0)
      [textual [("commit_hash", "1234567890abcdef");
                ("build_date", "05.10.2019 12:09:30")]]
    = (Ok (Ref 0), h')
    ∧ h' !! 0 = Some (textual [("commit_hash", "1234567890abcdef");
                               ("build_date", "05.10.2019 12:09:30")]).
Proof.
  apply (repr_dict_values_quiet
           [textual [("commit_hash", "1234567890abcdef");
                     ("build_date", "05.10.2019 12:09:30")]] 0
           [("commit_hash", "1234567890abcdef");
            ("build_date", "05.10.2019 12:09:30")]).
  - reflexivity.
  - decide_by_compute.
  - decide_by_compute.
Defined.

(** X8. Both renderers look at the keys before they look at the values:
    with a key that is not text they raise the [TypeError] about the keys
    whatever the values are, and only when all keys are text does a value
    that is not text raise the [TypeError] about the values. In both
    cases the store is as it was. *)
Theorem renderers_check_keys_first :
  (∀ (h : heap) l (d : dict) k,
     h !! l = Some d → k ∈ d.*1 → is_str k = false →
     gen_version_file_lines (Ref l) h
       = (Raise (TypeError "not all keys of the dict are of type str"), h)
     ∧ gen_build_args_from_dict (Ref l) h
       = (Raise (TypeError "not all keys of the dict are of type str"), h))
  ∧ (∀ (h : heap) l (kd : list (string * pyval)) v,
       h !! l = Some (str_keyed kd) → v ∈ kd.*2 → is_str v = false →
       gen_version_file_lines (Ref l) h
         = (Raise (TypeError "not all values of the dict are of type str"), h)
       ∧ gen_build_args_from_dict (Ref l) h
         = (Raise (TypeError "not all values of the dict are of type str"),
            h)).
Proof.
  split.
  - intros h l d k Hl Hin Hk.
    pose proof (forallb_is_str_false _ _ Hin Hk) as Hall. split.
    + by apply (gen_version_file_lines_bad_key_any _ _ _ Hl).
    + by apply (gen_build_args_from_dict_bad_key _ _ _ Hl).
  - intros h l kd v Hl Hin Hv.
    assert (Hall : forallb is_str (str_keyed kd).*2 = false).
    { apply (forallb_is_str_false _ v); [|done].
      replace ((str_keyed kd).*2) with (kd.*2); [done|].
      unfold str_keyed. rewrite <- !list_fmap_compose.
      apply list_fmap_ext. by intros i [] _. }
    split.
    + apply (gen_version_file_lines_bad_value_any _ _ _ Hl); [|done].
      apply str_keyed_keys.
    + apply (gen_build_args_from_dict_bad_value _ _ _ Hl); [|done].
      apply str_keyed_keys.
Qed.

Lemma renderers_check_keys_first_witness :
  (gen_version_file_lines (Ref 0) [[(VInt 1, VInt 2)]]
     = (Raise (TypeError "not all keys of the dict are of type str"),
        [[(VInt 1, VInt 2)]])
   ∧ gen_build_args_from_dict (Ref 0) [[(VInt 1, VInt 2)]]
     = (Raise (TypeError "not all keys of the dict are of type str"),
        [[(VInt 1, VInt 2)]]))
  ∧ (gen_version_file_lines (Ref 0) [str_keyed [("abc", VInt 123)]]
       = (Raise (TypeError "not all values of the dict are of type str"),
          [str_keyed [("abc", VInt 123)]])
     ∧ gen_build_args_from_dict (Ref 0) [str_keyed [("abc", VInt 123)]]
       = (Raise (TypeError "not all values of the dict are of type str"),
          [str_keyed [("abc", VInt 123)]])).
Proof.
  split.
  - apply (proj1 renderers_check_keys_first [[(VInt 1, VInt 2)]] 0
             [(VInt 1, VInt 2)] (VInt 1));
      [reflexivity | decide_by_compute | reflexivity].
  - apply (proj2 renderers_check_keys_first [str_keyed [("abc", VInt 123)]] 0
             [("abc", VInt 123)] (VInt 123));
      [reflexivity | decide_by_compute | reflexivity].
Defined.

Section Prefixes.

Implicit Types (s : string).

Lemma take_all s : take (len s) s = s.
Proof. induction s as [|c s IH]; [done|]. simpl. by rewrite IH. Qed.

Lemma take_take n m s : n ≤ m → take n (take m s) = take n s.
Proof.
  revert m s. induction n as [|n IH]; intros m s Hnm; [by destruct m, s|].
  destruct m as [|m]; [lia|]. destruct s as [|c s]; [done|].
  simpl. rewrite IH; [done|lia].
Qed.

Lemma take_prefix n s : String.prefix (take n s) s = true.
Proof.
  revert s. induction n as [|n IH]; intros [|c s]; try done. simpl.
  destruct (ascii_dec c c); [apply IH|done].
Qed.

End Prefixes.

(** X9. For a string [s] of at least 8 characters [string_to_part_list]
    yields [len s - 7] parts; the part at position [i] is the first
    [8 + i] characters of [s], so it has [8 + i] characters, it is a
    prefix of [s] and of every later part, and the last part is [s]
    itself. *)
Theorem string_to_part_list_nested (s : string) (h : heap) :
  8 ≤ len s →
  ∃ parts,
    string_to_part_list (Atom (VStr s)) h = (Ok parts, h)
    ∧ length parts = len s - 7
    ∧ (∀ i p, parts !! i = Some p →
         p = take (8 + i) s ∧ len p = 8 + i ∧ String.prefix p s = true)
    ∧ (∀ i j p p', i ≤ j → parts !! i = Some p → parts !! j = Some p' →
         String.prefix p p' = true)
    ∧ last parts = Some s.
Proof.
  intros Hlen. eexists. split; [by apply string_to_part_list_ok|].
  assert (Hlook : ∀ i p,
            ((λ idx, take idx s) <$> seq 8 (len s - 7)) !! i = Some p →
            p = take (8 + i) s ∧ i < len s - 7).
  { intros i p. rewrite list_lookup_fmap.
    destruct (seq 8 (len s - 7) !! i) as [n|] eqn:Hn; [|done].
    apply lookup_seq in Hn as [-> Hi]. by intros [= <-]. }
  split; [by rewrite length_fmap, length_seq|]. split; [|split].
  - intros i p [-> Hi]%Hlook. split; [done|].
    split; [apply len_take; lia|apply take_prefix].
  - intros i j p p' Hij [-> Hi]%Hlook [-> Hj]%Hlook.
    rewrite <- (take_take (8 + i) (8 + j) s) by lia. apply take_prefix.
  - replace (len s - 7) with (S (len s - 8)) by lia.
    rewrite seq_S, fmap_snoc, last_snoc. f_equal.
    replace (8 + (len s - 8)) with (len s) by lia. apply take_all.
Qed.

Lemma string_to_part_list_nested_witness :
  ∃ parts,
    string_to_part_list (Atom (VStr "abcdefghij")) [] = (Ok parts, [])
    ∧ length parts = 3
    ∧ (∀ i p, parts !! i = Some p →
         p = take (8 + i) "abcdefghij" ∧ len p = 8 + i
         ∧ String.prefix p "abcdefghij" = true)
    ∧ (∀ i j p p', i ≤ j → parts !! i = Some p → parts !! j = Some p' →
         String.prefix p p' = true)
    ∧ last parts = Some "abcdefghij".
Proof.
  apply (string_to_part_list_nested "abcdefghij" []). vm_compute. lia.
Defined.

(** X10. The renderers only read: whatever they are given, and whether
    they return or raise, [gen_version_file_lines] and
    [gen_build_args_from_dict] leave the store exactly as it was. *)
Theorem renderers_read_only (o : pyobj) (h : heap) :
  (gen_version_file_lines o h).2 = h
  ∧ (gen_build_args_from_dict o h).2 = h.
Proof.
  destruct o as [v|l]; [done|].
  destruct (h !! l) as [d|] eqn:Hl.
  - destruct (forallb is_str d.*1) eqn:Hk.
    + destruct (forallb is_str d.*2) eqn:Hv.
      * by rewrite (gen_version_file_lines_ok _ _ _ Hl Hk Hv),
                   (gen_build_args_from_dict_ok _ _ _ Hl Hk Hv).
      * by rewrite (gen_version_file_lines_bad_value_any _ _ _ Hl Hk Hv),
                   (gen_build_args_from_dict_bad_value _ _ _ Hl Hk Hv).
    + by rewrite (gen_version_file_lines_bad_key_any _ _ _ Hl Hk),
                 (gen_build_args_from_dict_bad_key _ _ _ Hl Hk).
  - unfold gen_version_file_lines, gen_build_args_from_dict, keys, bind,
      deref. by rewrite Hl.
Qed.

(** X11. The functions that build a dict never touch the dicts that are
    there: whatever [upper_dict_keys], [prefix_dict_keys] and
    [get_hash_arg_pairs] are given, and whether they return or raise, the
    store afterwards is the store before with at most new dicts added at
    the end, so every dict of the caller holds what it held. *)
Theorem builders_keep_existing_dicts (pfx o : pyobj) (h : heap) :
  (∃ new, (upper_dict_keys o h).2 = h ++ new)
  ∧ (∃ new, (prefix_dict_keys pfx o h).2 = h ++ new)
  ∧ (∃ new, (get_hash_arg_pairs o h).2 = h ++ new).
Proof.
  assert (Hsame : ∀ h0 : heap, ∃ new : heap, h0 = h0 ++ new).
  { intros h0. exists []. by rewrite app_nil_r. }
  split; [|split].
  - destruct o as [v|l]; [apply Hsame|].
    destruct (h !! l) as [d|] eqn:Hl.
    + destruct (forallb is_str d.*1) eqn:Hk.
      * rewrite (upper_dict_keys_ok _ _ _ Hl Hk). by eexists.
      * rewrite (upper_dict_keys_bad_key _ _ _ Hl Hk). apply Hsame.
    + unfold upper_dict_keys, keys, bind, deref. simpl. rewrite Hl.
      apply Hsame.
  - destruct pfx as [[p| |]|]; try apply Hsame.
    destruct o as [v|l]; [apply Hsame|].
    destruct (h !! l) as [d|] eqn:Hl.
    + destruct (forallb is_str d.*1) eqn:Hk.
      * rewrite (prefix_dict_keys_fold _ _ _ _ Hl Hk). by eexists.
      * rewrite (prefix_dict_keys_bad_key _ _ _ _ Hl Hk). apply Hsame.
    + unfold prefix_dict_keys, keys, bind, deref. simpl. rewrite Hl.
      apply Hsame.
  - destruct o as [[s| |]|]; try apply Hsame.
    destruct (Nat.lt_ge_cases (len s) 8) as [Hs|Hs].
    + rewrite (get_hash_arg_pairs_short _ _ Hs). apply Hsame.
    + rewrite (get_hash_arg_pairs_ok _ _ Hs). by eexists.
Qed.

Section Commute.

Lemma upper_app (s t : string) : upper (s +:+ t) = upper s +:+ upper t.
Proof.
  induction s as [|c s IH]; [done|]. rewrite str_app_cons. cbn [upper].
  by rewrite IH.
Qed.

End Commute.

(** X12. Prefixing and upper-casing can be done in either order, as long
    as the prefix is upper-cased too: when the upper-case forms of the
    keys are pairwise different, upper-casing the keys of
    [prefix_dict_keys(pfx, d)] and prefixing the keys of
    [upper_dict_keys(d)] with [pfx.upper()] give dicts with the same
    entries in the same order, each key being [pfx.upper() + k.upper()]. *)
Theorem prefix_upper_commute (pfx : string) (h : heap) l
    (kd : list (string * pyval)) :
  h !! l = Some (str_keyed kd) → NoDup (upper <$> kd.*1) →
  ∃ h1 h2 : heap,
    prefix_then_upper pfx (Ref l) h
    = (Ok (str_keyed ((λ e, (upper pfx +:+ upper e.1, e.2)) <$> kd)), h1)
    ∧ upper_then_prefix pfx (Ref l) h
      = (Ok (str_keyed ((λ e, (upper pfx +:+ upper e.1, e.2)) <$> kd)), h2).
Proof.
  intros Hl Hup.
  assert (Hnd : NoDup kd.*1) by by eapply NoDup_fmap_1.
  eexists _, _. split.
  - unfold prefix_then_upper.
    run_with (prefix_dict_keys_ok pfx _ _ _ Hl Hnd).
    erewrite bind_ok.
    2:{ apply upper_dict_keys_str_keyed; [apply lookup_new|].
        replace (upper <$> (prod_map (String.app pfx) id <$> kd).*1)
          with (String.app (upper pfx) <$> (upper <$> kd.*1)).
        - by apply NoDup_fmap_2; [apply _|].
        - rewrite <- !list_fmap_compose. apply list_fmap_ext.
          intros i [k v] _. simpl. by rewrite upper_app. }
    rewrite (items_ok _ _ _ (lookup_new _ _)). do 2 f_equal.
    unfold str_keyed. rewrite <- !list_fmap_compose.
    apply list_fmap_ext. intros i [k v] _. simpl. by rewrite upper_app.
  - unfold upper_then_prefix.
    run_with (upper_dict_keys_str_keyed _ _ _ Hl Hup).
    erewrite bind_ok.
    2:{ apply prefix_dict_keys_ok; [apply lookup_new|].
        replace (((λ e : string * pyval, (upper e.1, e.2)) <$> kd).*1)
          with (upper <$> kd.*1); [done|].
        rewrite <- !list_fmap_compose. apply list_fmap_ext.
        by intros i [] _. }
    rewrite (items_ok _ _ _ (lookup_new _ _)). do 2 f_equal.
    unfold str_keyed. rewrite <- !list_fmap_compose.
    apply list_fmap_ext. by intros i [k v] _.
Qed.

Lemma prefix_upper_commute_witness :
  ∃ h1 h2 : heap,
    prefix_then_upper "git_" (Ref 0)
      [str_keyed [("branch", VStr "main"); ("n", VInt 7)]]
    = (Ok (str_keyed ((λ e, (upper "git_" +:+ upper e.1, e.2))
                        <$> [("branch", VStr "main"); ("n", VInt 7)])), h1)
    ∧ upper_then_prefix "git_" (Ref 0)
        [str_keyed [("branch", VStr "main"); ("n", VInt 7)]]
      = (Ok (str_keyed ((λ e, (upper "git_" +:+ upper e.1, e.2))
                          <$> [("branch", VStr "main"); ("n", VInt 7)])), h2).
Proof.
  apply (prefix_upper_commute "git_"
           [str_keyed [("branch", VStr "main"); ("n", VInt 7)]] 0
           [("branch", VStr "main"); ("n", VInt 7)]).
  - reflexivity.
  - decide_by_compute.
Defined.

Section HashNames.

Lemma pretty_N_char_plain x : plain (pretty_N_char x) = true.
Proof. unfold pretty_N_char. by repeat case_match. Qed.

Lemma pretty_N_go_plain x :
  ∀ s, plain_str s = true → plain_str (pretty_N_go x s) = true.
Proof.
  induction (N.lt_wf_0 x) as [x _ IH]; intros s Hs.
  assert (x = 0 ∨ 0 < x)%N as [->|Hx] by lia.
  - by rewrite pretty_N_go_0.
  - rewrite pretty_N_go_step by done. apply IH.
    + by apply N.div_lt.
    + unfold plain_str. cbn [all_chars]. by rewrite pretty_N_char_plain.
Qed.

Lemma of_nat_plain n : plain_str (of_nat n) = true.
Proof.
  unfold of_nat, pretty, pretty_nat, pretty, pretty_N.
  destruct (decide (N.of_nat n = 0%N)); [done|]. by apply pretty_N_go_plain.
Qed.

Lemma hash_key_plain L : plain_str (hash_key L) = true.
Proof.
  unfold hash_key, plain_str. rewrite !all_chars_app.
  fold (plain_str (of_nat L)). by rewrite of_nat_plain.
Qed.





Lemma hash_parts_plain s : Forall (λ e, plain_str e.1 = true) (hash_parts s).
Proof.
  unfold hash_parts. apply Forall_fmap, Forall_forall. intros L _.
  apply hash_key_plain.
Qed.


End HashNames.

Section AnyRun.

Ltac norm_locs :=
  repeat match goal with
         | |- context [Ref (length ?h)] =>
             let n := eval lazy in (length h) in
             change (length h) with n
         end.

Ltac step tac := cbv beta zeta; norm_locs; erewrite bind_ok; [|tac].







End AnyRun.

Section HeaderLines.

Lemma prefix_app (p r : string) : String.prefix p (p +:+ r) = true.
Proof.
  induction p as [|c p IH]; [by destruct r|]. rewrite str_app_cons. simpl.
  destruct (ascii_dec c c); [apply IH|done].
Qed.

Lemma plain_no_newline s : plain_str s = true → mem newline s = false.
Proof.
  unfold plain_str. induction s as [|c s IH]; [done|].
  cbn [all_chars mem]. intros [Hc Hs]%andb_prop.
  destruct (decide (newline = c)) as [<-|]; [done|]. by apply IH.
Qed.

Lemma header_line_define (e : string * string) :
  String.prefix "#define " (header_line e) = true.
Proof. unfold header_line. apply prefix_app. Qed.

(** The defines of the header text. *)
Lemma header_lines_ok repo :
  Forall (λ ln, String.prefix "#define " ln = true ∧ mem newline ln = false)
    ((header_line <$> (prod_map upper id <$> git_entries repo))
     ++ (header_line <$> hash_defines repo)).
Proof.
  apply Forall_app. split.
  - repeat (apply Forall_cons; split;
              [split; [apply header_line_define|
                       apply header_line_no_newline;
                       [reflexivity|apply strip_repr_no_newline]]|]).
    apply Forall_nil_2.
  - apply Forall_fmap, Forall_fmap, Forall_forall. intros [k v] Hin.
    split; [apply header_line_define|].
    apply header_line_no_newline; [|apply strip_repr_no_newline].
    simpl. apply plain_no_newline.
    exact (proj1 (Forall_forall _ _) (hash_parts_plain _) _ Hin).
Qed.




End HeaderLines.









Section SameMacros.






End SameMacros.



Section Undecodable.

Implicit Types (h : heap) (l : loc) (kd : list (string * pyval)).





End Undecodable.


